(** * StarGAN v2 training orchestration ([core/solver.py])

    A shallow embedding of the solver: the exponential moving average of
    the shadow networks, the discriminator and generator losses, the
    epoch/batch loop with its decaying diversity weight, the checkpoint
    wiring of [Solver.__init__] and the sampling entry point.

    Numbers are kept behind an interface ([PyNum]) with two instances:
    the kernel's binary64 floats, which is what CPython computes with,
    and exact rationals.  The properties are stated for every arithmetic
    wherever the code alone decides them; facts about signs are proved
    from what the two instances have in common ([PyNumSigns]).  Network
    forward passes, back-propagation, optimizer steps and the binary
    cross entropy are library code and enter as parameters; [torch.lerp]
    is modelled on its kernel. *)

From Stdlib Require Import Ascii PrimFloat FloatOps SpecFloat FloatAxioms Uint63.
From Stdlib Require Import QArith Qabs Lqa.
From stdpp Require Import gmap strings pretty list.

(** ** Exceptions and the effect monad *)

Inductive exn : Set :=
  | AssertionError
  | TypeError
  | ValueError
  | ZeroDivisionError
  | UnboundLocalError
  | AttributeError
  | RuntimeError
  | FileNotFoundError.

Inductive result (A : Type) : Type :=
  | Ok (a : A)
  | Raise (e : exn).
Arguments Ok {A} a.
Arguments Raise {A} e.

(** A computation reads and writes a state [S] and either returns or
    raises; the state reached when the exception is raised is kept. *)
Definition py (S A : Type) : Type := S → result A * S.

Global Instance py_ret {S} : MRet (py S) := λ A a s, (Ok a, s).
Global Instance py_bind {S} : MBind (py S) := λ A B f m s,
  match m s with
  | (Ok a, s') => f a s'
  | (Raise e, s') => (Raise e, s')
  end.

Definition raise {S A} (e : exn) : py S A := λ s, (Raise e, s).
Definition get {S} : py S S := λ s, (Ok s, s).
Definition modify {S} (f : S → S) : py S () := λ s, (Ok (), f s).
Definition lift_result {S A} (r : result A) : py S A := λ s, (r, s).

(** [assert c] *)
Definition py_assert {S} (c : bool) : py S () :=
  if c then mret () else raise AssertionError.

(** [if c: body] *)
Definition when {S} (c : bool) (body : py S ()) : py S () :=
  if c then body else mret ().

(** [for x in xs: body x] *)
Fixpoint for_each {S A} (xs : list A) (body : A → py S ()) : py S () :=
  match xs with
  | [] => mret ()
  | x :: xs' => body x ;; for_each xs' body
  end.

(** [a, b = xs]: [None] is not iterable, and the length has to be two. *)
Definition unpack2 {S A} (xs : option (list A)) : py S (A * A) :=
  match xs with
  | None => raise TypeError
  | Some [a; b] => mret (a, b)
  | Some _ => raise ValueError
  end.

(** [relates R m]: however [m] ends, by returning or by raising, the
    state it leaves is related by [R] to the state it started from. *)
Definition relates {S A} (R : relation S) (m : py S A) : Prop :=
  ∀ s r s', m s = (r, s') → R s s'.

(** ** Numbers *)

(** What the solver asks of a Python float. *)
Class PyNum (T : Type) : Type := {
  num_zero : T;
  num_add : T → T → T;
  num_sub : T → T → T;
  num_mul : T → T → T;
  num_quot : T → T → T;       (* the quotient, for a non-zero divisor *)
  num_abs : T → T;
  num_ltb : T → T → bool;
  num_eqb : T → T → bool;
  num_of_Q : Q → T;           (* the float that a literal denotes *)
}.

(** Exact arithmetic. *)
Definition Qltb (x y : Q) : bool := negb (Qle_bool y x).

Global Instance Q_num : PyNum Q := {|
  num_zero := 0%Q;
  num_add := Qplus;
  num_sub := Qminus;
  num_mul := Qmult;
  num_quot := Qdiv;
  num_abs := Qabs;
  num_ltb := Qltb;
  num_eqb := Qeq_bool;
  num_of_Q := λ q, q;
|}.

(** IEEE 754 binary64, the representation of a CPython [float].  A
    literal is the quotient of its numerator and denominator, rounded
    once (both are exact for the literals of the solver). *)
Definition float_of_Z (z : Z) : float :=
  match z with
  | Zneg p => PrimFloat.opp (PrimFloat.of_uint63 (Uint63.of_Z (Zpos p)))
  | _ => PrimFloat.of_uint63 (Uint63.of_Z z)
  end.

Global Instance float_num : PyNum float := {|
  num_zero := PrimFloat.zero;
  num_add := PrimFloat.add;
  num_sub := PrimFloat.sub;
  num_mul := PrimFloat.mul;
  num_quot := PrimFloat.div;
  num_abs := PrimFloat.abs;
  num_ltb := PrimFloat.ltb;
  num_eqb := PrimFloat.eqb;
  num_of_Q := λ q, PrimFloat.div (float_of_Z (Qnum q)) (float_of_Z (Zpos (Qden q)));
|}.


(** [x] is not negative: [x < 0] is false.  (A NaN is not negative.) *)
Definition not_negative {T : Type} `{PyNum T} (x : T) : Prop :=
  num_ltb x num_zero = false.

(** The facts about signs that the rationals and IEEE 754 have in common:
    an absolute value is not negative, nor is zero, nor a sum of two
    numbers that are not, nor the quotient of such a number by a count
    (by the count 0 it is an infinity or a NaN in IEEE 754). *)
Class PyNumSigns (T : Type) `{PyNum T} : Prop := {
  abs_not_negative : ∀ x : T, not_negative (num_abs x);
  zero_not_negative : not_negative (num_zero : T);
  add_not_negative : ∀ x y : T,
    not_negative x → not_negative y → not_negative (num_add x y);
  quot_count_not_negative : ∀ (x : T) (n : nat),
    not_negative x → not_negative (num_quot x (num_of_Q (inject_Z (Z.of_nat n))));
}.

(** The same on the specification of a binary64 float: a NaN, a zero of
    either sign, a positive number or the positive infinity. *)
Definition sf_not_negative (f : spec_float) : bool :=
  match f with
  | S754_infinity true | S754_finite true _ _ => false
  | _ => true
  end.

(** The sign bit is clear, or the float is a NaN. *)
Definition sf_sign_clear (f : spec_float) : bool :=
  match f with
  | S754_zero s | S754_infinity s | S754_finite s _ _ => negb s
  | S754_nan => true
  end.

Section Numbers.
Context {T : Type} `{PyNum T}.

(** [a / b]: Python raises on a zero divisor, for ints and floats alike. *)
Definition num_div (a b : T) : result T :=
  if num_eqb b num_zero then Raise ZeroDivisionError else Ok (num_quot a b).

(** [n] as a float, for an integer [n]. *)
Definition num_of_Z (n : Z) : T := num_of_Q (inject_Z n).

(** ** Tensors *)

(** The data of a tensor, flattened, and whether autograd records the
    operations applied to it. *)
Record Tensor : Type := mkTensor {
  data : list T;
  requires_grad : bool;
}.

(** [t.detach()]: same data, cut from the autograd graph. *)
Definition detach (t : Tensor) : Tensor :=
  {| data := data t; requires_grad := false |}.

(** [t.requires_grad_()] *)
Definition requires_grad_ (t : Tensor) : Tensor :=
  {| data := data t; requires_grad := true |}.

(** Whether autograd tracks the result of an operation on two tensors:
    it does when it tracks one of the operands. *)
Definition tracks (a b : Tensor) : bool := requires_grad a || requires_grad b.

(** [torch.lerp(start, end, weight)] with a scalar weight, one element:
    torch documents [start + weight * (end - start)] and computes it that
    way for [|weight| < 0.5], and as [end - (end - start) * (1 - weight)]
    otherwise; the two agree in exact arithmetic and differ by rounding
    in floating point. *)
Definition lerp1 (s e w : T) : T :=
  if num_ltb (num_abs w) (num_of_Q (1 # 2))
  then num_add s (num_mul w (num_sub e s))
  else num_sub e (num_mul (num_sub e s) (num_sub (num_of_Q 1) w)).

(** The whole tensors.  The data of a tensor is kept flat, so that its
    shape is its length: tensors of the same length are paired element
    by element, a tensor of one element is broadcast over the other, and
    any other two lengths are torch's [RuntimeError]. *)
Definition lerp (start end_ : list T) (weight : T) : result (list T) :=
  if bool_decide (length start = length end_)
  then Ok (zip_with (λ s e, lerp1 s e weight) start end_)
  else match start, end_ with
       | [s], _ => Ok ((λ e, lerp1 s e weight) <$> end_)
       | _, [e] => Ok ((λ s, lerp1 s e weight) <$> start)
       | _, _ => Raise RuntimeError
       end.

(** [torch.mean(torch.abs(a - b))]: the sum of the absolute differences
    over the number of elements.  On an empty tensor this is the quotient
    of zero by zero of the number type: NaN in binary64, as in torch; the
    rationals have no NaN, and their quotient by zero is 0. *)
Definition tsum (l : list T) : T := foldr num_add num_zero l.
Definition tmean (l : list T) : T :=
  num_quot (tsum l) (num_of_Z (Z.of_nat (length l))).
Definition abs_diff (a b : list T) : list T :=
  zip_with (λ x y, num_abs (num_sub x y)) a b.
Definition mean_abs_diff (a b : Tensor) : T := tmean (abs_diff (data a) (data b)).

End Numbers.
Arguments Tensor T : clear implicits.

(** ** Parameters in memory and the moving average *)

(** Every [nn.Parameter] is an object with an identity; the store maps it
    to its current [.data].  A module is seen through [parameters()], the
    list of its parameter objects (torch lists each object once). *)
Abbreviation Store T := (gmap positive (list T)).
Abbreviation Module_ := (list positive).

Section MovingAverage.
Context {T : Type} `{PyNum T}.

(** One turn of the loop of [moving_average]:
    [param_test.data = torch.lerp(param.data, param_test.data, beta)].
    When [torch.lerp] raises, nothing is assigned in this turn. *)
Definition ema_assign (beta : T) (pq : positive * positive) : py (Store T) () :=
  σ ← get;
  match σ !! pq.1, σ !! pq.2 with
  | Some param, Some param_test =>
      value ← lift_result (lerp param param_test beta);
      modify (<[pq.2 := value]>)
  | _, _ => mret ()
  end.

(** [moving_average(model, model_test, beta)]; [zip] stops at the shorter
    of the two parameter lists, and an exception leaves the assignments
    of the earlier turns in place. *)
Definition moving_average (model model_test : Module_) (beta : T) : py (Store T) () :=
  for_each (zip model model_test) (ema_assign beta).

End MovingAverage.

(** ** Configuration, networks and the two losses *)

Abbreviation Labels := (list Z).
Abbreviation Masks T := (list (Tensor T)).
(** A [Munch] of scalars: attribute name to value. *)
Abbreviation Munch T := (gmap string T).

(** What a loss function does that can be observed from outside: forward
    passes of the networks and evaluations of the cross entropy. *)
Inductive event : Set :=
  | Forward (role : string)
  | CrossEntropy.

Section Losses.
Context {T : Type} `{PyNum T}.

(** The fields of [args] that the solver reads. *)
Record Args : Type := mkArgs {
  mode : string;
  checkpoint_dir : string;
  result_dir : string;
  lr : T;
  f_lr : T;
  beta1 : T;
  beta2 : T;
  weight_decay : T;
  lambda_reg : T;
  lambda_sty : T;
  lambda_ds : T;
  lambda_cyc : T;
  w_hpf : T;
  ds_epoch : T;
  ema : bool;
  num_epochs : Z;
  resume_epoch : Z;
  wandb_log : Z;
  save_every : Z;
  eval_every : Z;
}.

(** [args.lambda_ds = v] *)
Definition set_lambda_ds (v : T) (a : Args) : Args :=
  {| mode := mode a; checkpoint_dir := checkpoint_dir a; result_dir := result_dir a;
     lr := lr a; f_lr := f_lr a; beta1 := beta1 a; beta2 := beta2 a;
     weight_decay := weight_decay a;
     lambda_reg := lambda_reg a; lambda_sty := lambda_sty a; lambda_ds := v;
     lambda_cyc := lambda_cyc a; w_hpf := w_hpf a; ds_epoch := ds_epoch a;
     ema := ema a; num_epochs := num_epochs a; resume_epoch := resume_epoch a;
     wandb_log := wandb_log a; save_every := save_every a;
     eval_every := eval_every a |}.

(** The configuration apart from the decaying weight. *)
Definition but_lambda_ds (a : Args) : Args := set_lambda_ds num_zero a.

(** The networks as the losses call them: [nets.generator(x, s, masks=m)]
    and so on; [fan] is present only when the builder added it. *)
Record Nets : Type := mkNets {
  generator : Tensor T → Tensor T → option (Masks T) → Tensor T;
  mapping_network : Tensor T → Labels → Tensor T;
  style_encoder : Tensor T → Labels → Tensor T;
  discriminator : Tensor T → Labels → Tensor T;
  fan : option (Tensor T → Masks T);
}.

(** [F.binary_cross_entropy_with_logits(logits, targets)], from torch. *)
Context (binary_cross_entropy_with_logits : list T → list T → T).

(** A forward pass, recorded. *)
Definition forward {A} (role : string) (out : A) : py (list event) A :=
  λ tr, (Ok out, tr ++ [Forward role]).

(** [adv_loss(logits, target)] *)
Definition adv_loss (logits : Tensor T) (target : Z) : py (list event) T :=
  py_assert (bool_decide (target ∈ [1; 0]%Z));;
  let targets := replicate (length (data logits)) (num_of_Z target) in
  modify (λ tr, tr ++ [CrossEntropy]);;
  mret (binary_cross_entropy_with_logits (data logits) targets).

(** [nets.fan.get_heatmap(x) if args.w_hpf > 0 else None] *)
Definition heatmap_if_enabled (nets : Nets) (args : Args) (x : Tensor T)
    : py (list event) (option (Masks T)) :=
  if num_ltb num_zero (w_hpf args) then
    match fan nets with
    | Some get_heatmap => m ← forward "fan" (get_heatmap x); mret (Some m)
    | None => raise AttributeError
    end
  else mret None.

(** [compute_d_loss(nets, args, x_real, y_org, y_trg, z_trg=None,
    x_ref=None, masks=None)].  The block under [torch.no_grad()] yields
    tensors that autograd does not track.  After the assertion one of the
    two sources is present; a network given [None] would raise.
    ([x_real.requires_grad_()] also marks the caller's tensor; nothing
    here reads that mark again.) *)
Definition compute_d_loss (nets : Nets) (args : Args)
    (x_real : Tensor T) (y_org y_trg : Labels)
    (z_trg x_ref : option (Tensor T)) (masks : option (Masks T))
    : py (list event) (T * Munch T) :=
  py_assert (negb (eqb (bool_decide (z_trg = None)) (bool_decide (x_ref = None))));;
  (* with real images *)
  let x_real := requires_grad_ x_real in
  out ← forward "discriminator" (discriminator nets x_real y_org);
  loss_real ← adv_loss out 1;
  let loss_reg := num_zero in
  (* with fake images *)
  s_trg ← match z_trg, x_ref with
          | Some z, _ => forward "mapping_network" (detach (mapping_network nets z y_trg))
          | None, Some x => forward "style_encoder" (detach (style_encoder nets x y_trg))
          | None, None => raise TypeError
          end;
  x_fake ← forward "generator" (detach (generator nets x_real s_trg masks));
  out ← forward "discriminator" (discriminator nets x_fake y_trg);
  loss_fake ← adv_loss out 0;
  let loss := num_add (num_add loss_real loss_fake)
                      (num_mul (lambda_reg args) loss_reg) in
  mret (loss, {[ "real" := loss_real; "fake" := loss_fake; "reg" := num_zero ]}).

(** The local variables of [compute_g_loss] when it reaches its [return]. *)
Record GFrame : Type := mkGFrame {
  g_s_trg : Tensor T;
  g_x_fake : Tensor T;
  g_s_trg2 : Tensor T;
  g_x_fake2 : Tensor T;
  g_loss_adv : T;
  g_loss_sty : T;
  g_loss_ds : T;
  g_loss_ds_requires_grad : bool;   (* [loss_ds.requires_grad] *)
  g_loss_cyc : T;
}.

(** The body of [compute_g_loss] down to the [return]. *)
Definition compute_g_loss_body (nets : Nets) (args : Args)
    (x_real : Tensor T) (y_org y_trg : Labels)
    (z_trgs x_refs : option (list (Tensor T))) (masks : option (Masks T))
    : py (list event) GFrame :=
  '(z_trg, z_trg2) ← unpack2 z_trgs;
  '(x_ref, x_ref2) ← unpack2 x_refs;
  (* adversarial loss *)
  s_trg ← forward "mapping_network" (mapping_network nets z_trg y_trg);
  x_fake ← forward "generator" (generator nets x_real s_trg masks);
  out ← forward "discriminator" (discriminator nets x_fake y_trg);
  loss_adv ← adv_loss out 1;
  (* style reconstruction loss *)
  s_pred ← forward "style_encoder" (style_encoder nets x_fake y_trg);
  s_ref ← forward "style_encoder" (style_encoder nets x_ref y_trg);
  let loss_sty := mean_abs_diff s_pred s_ref in
  (* diversity sensitive loss *)
  s_trg2 ← forward "mapping_network" (mapping_network nets z_trg2 y_trg);
  x_fake2 ← forward "generator" (generator nets x_real s_trg2 masks);
  let x_fake2 := detach x_fake2 in
  let loss_ds := mean_abs_diff x_fake x_fake2 in
  (* cycle-consistency loss *)
  masks ← heatmap_if_enabled nets args x_fake;
  s_org ← forward "style_encoder" (style_encoder nets x_real y_org);
  x_rec ← forward "generator" (generator nets x_fake s_org masks);
  let loss_cyc := mean_abs_diff x_rec x_real in
  mret {| g_s_trg := s_trg; g_x_fake := x_fake; g_s_trg2 := s_trg2;
          g_x_fake2 := x_fake2; g_loss_adv := loss_adv; g_loss_sty := loss_sty;
          g_loss_ds := loss_ds; g_loss_ds_requires_grad := tracks x_fake x_fake2;
          g_loss_cyc := loss_cyc |}.

(** [loss_adv + args.lambda_sty * loss_sty - args.lambda_ds * loss_ds
     + args.lambda_cyc * loss_cyc] *)
Definition g_total (args : Args) (fr : GFrame) : T :=
  num_add
    (num_sub
       (num_add (g_loss_adv fr) (num_mul (lambda_sty args) (g_loss_sty fr)))
       (num_mul (lambda_ds args) (g_loss_ds fr)))
    (num_mul (lambda_cyc args) (g_loss_cyc fr)).

(** [compute_g_loss(nets, args, x_real, y_org, y_trg, z_trgs=None,
    x_refs=None, masks=None)] *)
Definition compute_g_loss (nets : Nets) (args : Args)
    (x_real : Tensor T) (y_org y_trg : Labels)
    (z_trgs x_refs : option (list (Tensor T))) (masks : option (Masks T))
    : py (list event) (T * Munch T) :=
  fr ← compute_g_loss_body nets args x_real y_org y_trg z_trgs x_refs masks;
  mret (g_total args fr,
        {[ "adv" := g_loss_adv fr; "sty" := g_loss_sty fr;
           "ds" := g_loss_ds fr; "cyc" := g_loss_cyc fr ]}).

End Losses.
Arguments Args T : clear implicits.
Arguments Nets T : clear implicits.
Arguments GFrame T : clear implicits.

(** ** File names *)

(** [os.path.join(a, b)] on POSIX. *)
Fixpoint ends_with_sep (s : string) : bool :=
  match s with
  | "" => false
  | String c "" => bool_decide (c = "/"%char)
  | String _ s' => ends_with_sep s'
  end.

Definition starts_with_sep (s : string) : bool :=
  match s with
  | String c _ => bool_decide (c = "/"%char)
  | "" => false
  end.

Definition ospj (a b : string) : string :=
  if starts_with_sep b then b
  else if bool_decide (a = "") || ends_with_sep a then a +:+ b
  else a +:+ "/" +:+ b.

(** ['{:06d}'.format(step)]: the decimal digits, padded with zeros to six
    characters, the sign included. *)
Definition zeros (n : nat) : string := foldr String "" (replicate n "0"%char).

Definition fmt06 (step : Z) : string :=
  let digits := pretty (Z.abs step) in
  let sign := if (step <? 0)%Z then "-" else "" in
  sign +:+ zeros (6 - String.length sign - String.length digits) +:+ digits.

(** ** The solver: wiring, checkpoints, sampling *)

Section Solver.
Context {T : Type} `{PyNum T}.

(** [torch.optim.Adam(params=..., lr=..., betas=[...], weight_decay=...)] *)
Record Optimizer : Type := mkAdam {
  opt_params : Module_;
  opt_lr : T;
  opt_betas : T * T;
  opt_weight_decay : T;
}.

(** What can be registered with a checkpoint: a network or an optimizer. *)
Inductive Saveable : Type :=
  | NetModule (m : Module_)
  | OptimObj (o : Optimizer).

(** What a checkpoint file holds under one name: the data of a network's
    parameters, or an optimizer's state. *)
Inductive SavedState : Type :=
  | NetState (params : list (list T))
  | OptimState (o : Optimizer).

(** Modelled from the spec: [core/checkpoint.py] ([CheckpointIO]) is not
    among the sources.  Section 6 of the spec: it is registered with a path
    template that has a placeholder for the step and a mapping from role to
    collection; [save(step)] serialises every registered collection into
    the file of that step; [load(step)] restores them and fails when the
    file of the step is absent or does not have the registered entries.
    The template [ospj(dir, '{:06d}' + suffix)] is kept as [dir] and
    [suffix]. *)
Record CheckpointIO : Type := mkCheckpointIO {
  fname_dir : string;
  fname_suffix : string;
  module_dict : gmap string Saveable;
}.

Definition ckpt_fname (c : CheckpointIO) (step : Z) : string :=
  ospj (fname_dir c) (fmt06 step +:+ fname_suffix c).

(** [Solver]: the attributes set by [__init__] ([optims] only in train
    mode). *)
Record Solver : Type := mkSolver {
  nets : gmap string Module_;
  nets_ema : gmap string Module_;
  optims : option (gmap string Optimizer);
  ckptios : list CheckpointIO;
}.

(** What the solver does to the outside. *)
Inductive effect : Type :=
  | CkptWrite (path : string)
  | CkptRead (path : string)
  | WandbLog (losses : Munch T) (step : Z)
  | CalculateMetrics (ensemble : gmap string Module_) (step : Z) (mode_ : string)
  | TranslateUsingReference (ensemble : gmap string Module_) (fname : string)
  | VideoRef (ensemble : gmap string Module_) (fname : string).

(** The mutable world of a run: the [args] object (shared by all who hold
    it), the parameters, the checkpoint directory, the position of the
    training fetcher, and the effects so far. *)
Record World : Type := mkWorld {
  w_args : Args T;
  w_store : Store T;
  w_fs : gmap string (gmap string SavedState);
  w_fetched : nat;
  w_effects : list effect;
}.

Definition set_args (f : Args T → Args T) (w : World) : World :=
  {| w_args := f (w_args w); w_store := w_store w; w_fs := w_fs w;
     w_fetched := w_fetched w; w_effects := w_effects w |}.
Definition set_store (f : Store T → Store T) (w : World) : World :=
  {| w_args := w_args w; w_store := f (w_store w); w_fs := w_fs w;
     w_fetched := w_fetched w; w_effects := w_effects w |}.
Definition set_fs
    (f : gmap string (gmap string SavedState) → gmap string (gmap string SavedState))
    (w : World) : World :=
  {| w_args := w_args w; w_store := w_store w; w_fs := f (w_fs w);
     w_fetched := w_fetched w; w_effects := w_effects w |}.
Definition set_fetched (f : nat → nat) (w : World) : World :=
  {| w_args := w_args w; w_store := w_store w; w_fs := w_fs w;
     w_fetched := f (w_fetched w); w_effects := w_effects w |}.
Definition emit (e : effect) : py World () :=
  modify (λ w, {| w_args := w_args w; w_store := w_store w; w_fs := w_fs w;
                  w_fetched := w_fetched w; w_effects := w_effects w ++ [e] |}).

(** [obj.state_dict()] *)
Definition state_dict (σ : Store T) (s : Saveable) : SavedState :=
  match s with
  | NetModule m => NetState ((σ !!!.) <$> m)
  | OptimObj o => OptimState o
  end.

(** [ckptio.save(step)] *)
Definition ckpt_save (c : CheckpointIO) (step : Z) : py World () :=
  w ← get;
  let fname := ckpt_fname c step in
  modify (set_fs (<[fname := state_dict (w_store w) <$> module_dict c]>));;
  emit (CkptWrite fname).

(** [module.load_state_dict(saved)], for one registered name. *)
Definition load_state_dict (s : Saveable) (saved : SavedState) : py World () :=
  match s, saved with
  | NetModule m, NetState params =>
      if bool_decide (length m = length params)
      then modify (set_store (λ σ, foldl (λ σ pv, <[pv.1 := pv.2]> σ) σ (zip m params)))
      else raise ValueError
  | OptimObj _, OptimState _ => mret ()
  | _, _ => raise ValueError
  end.

(** [ckptio.load(step)] *)
Definition ckpt_load (c : CheckpointIO) (step : Z) : py World () :=
  w ← get;
  let fname := ckpt_fname c step in
  emit (CkptRead fname);;
  match w_fs w !! fname with
  | None => raise FileNotFoundError
  | Some file =>
      for_each (map_to_list (module_dict c)) (λ entry,
        match file !! entry.1 with
        | None => raise ValueError
        | Some saved => load_state_dict entry.2 saved
        end)
  end.

(** The part of [Solver.__init__] that wires optimizers and checkpoints,
    given what [build_model(args)] returned. *)
Definition Solver_init (args : Args T) (built : gmap string Module_ * gmap string Module_)
    : Solver :=
  let '(nets, nets_ema) := built in
  if bool_decide (mode args = "train") then
    let optims :=
      map_imap (λ net m,
        if bool_decide (net = "fan") then None
        else Some {| opt_params := m;
                     opt_lr := if bool_decide (net = "mapping_network")
                               then f_lr args else lr args;
                     opt_betas := (beta1 args, beta2 args);
                     opt_weight_decay := weight_decay args |}) nets in
    {| nets := nets; nets_ema := nets_ema; optims := Some optims;
       ckptios :=
         [ {| fname_dir := checkpoint_dir args; fname_suffix := "_nets.ckpt";
              module_dict := NetModule <$> nets |};
           {| fname_dir := checkpoint_dir args; fname_suffix := "_optims.ckpt";
              module_dict := OptimObj <$> optims |} ] |}
  else
    {| nets := nets; nets_ema := nets_ema; optims := None;
       ckptios :=
         [ {| fname_dir := checkpoint_dir args; fname_suffix := "_nets_ema.ckpt";
              module_dict := NetModule <$> nets_ema |} ] |}.

(** [Solver._save_checkpoint(step)] *)
Definition _save_checkpoint (self : Solver) (step : Z) : py World () :=
  for_each (ckptios self) (λ ckptio, ckpt_save ckptio step).

(** [Solver._load_checkpoint(step)] *)
Definition _load_checkpoint (self : Solver) (step : Z) : py World () :=
  for_each (ckptios self) (λ ckptio, ckpt_load ckptio step).

(** [Solver.sample(loaders)].  The two renderers of [core/utils.py] are
    recorded with the ensemble and the file name they are given; the
    images they also get, and the creation of the result directory, have
    no part in what follows. *)
Definition sample (self : Solver) : py World () :=
  w ← get;
  let args := w_args w in
  let nets_ema := nets self in
  _load_checkpoint self (resume_epoch args);;
  let fname := ospj (result_dir args) "reference.jpg" in
  emit (TranslateUsingReference nets_ema fname);;
  let fname := ospj (result_dir args) "video_ref.mp4" in
  emit (VideoRef nets_ema fname).

(** [Solver.evaluate()] *)
Definition evaluate (self : Solver) : py World () :=
  w ← get;
  let args := w_args w in
  let nets_ := nets self in
  let resume_epoch_ := resume_epoch args in
  _load_checkpoint self (resume_epoch args);;
  emit (CalculateMetrics nets_ resume_epoch_ "latent");;
  emit (CalculateMetrics nets_ resume_epoch_ "reference").

(** The effects that the training loop can have. *)
Definition train_effect (e : effect) : Prop :=
  match e with
  | WandbLog _ _ | CkptWrite _ | CalculateMetrics _ _ _ => True
  | CkptRead _ | TranslateUsingReference _ _ | VideoRef _ _ => False
  end.

(** From [w] to [w']: the configuration apart from the decaying weight is
    kept, and the effects grow by effects of the training loop. *)
Definition training_progress (w w' : World) : Prop :=
  but_lambda_ds (w_args w') = but_lambda_ds (w_args w) ∧
  ∃ added, w_effects w' = w_effects w ++ added ∧ Forall train_effect added.

(** From [w] to [w']: if the weight was not positive in [w], then [args]
    is in [w'] what it was in [w]. *)
Definition frozen (w w' : World) : Prop :=
  num_ltb num_zero (lambda_ds (w_args w)) = false → w_args w' = w_args w.

(** The calls of [wandb.log] among the effects, in order. *)
Definition wandb_logs (effects : list effect) : list (Munch T * Z) :=
  omap (λ e, match e with WandbLog losses step => Some (losses, step) | _ => None end)
       effects.

(** From [w] to [w']: [args] is what it was, and nothing was given to
    [wandb.log]. *)
Definition untouched (w w' : World) : Prop :=
  w_args w' = w_args w ∧ wandb_logs (w_effects w') = wandb_logs (w_effects w).

End Solver.
Arguments Optimizer T : clear implicits.
Arguments Saveable T : clear implicits.
Arguments SavedState T : clear implicits.
Arguments CheckpointIO T : clear implicits.
Arguments Solver T : clear implicits.
Arguments effect T : clear implicits.
Arguments World T : clear implicits.

(** ** The training loop *)

Section Train.
Context {T : Type} `{PyNum T}.

(** One item of the training fetcher. *)
Record Batch : Type := mkBatch {
  inputs_x_src : Tensor T;
  inputs_y_src : Labels;
  inputs_x_ref : Tensor T;
  inputs_x_ref2 : Tensor T;
  inputs_y_ref : Labels;
  inputs_z_trg : Tensor T;
  inputs_z_trg2 : Tensor T;
}.

(** The signature shared by [compute_d_loss] (one style source each) and
    [compute_g_loss] (a list of style sources each). *)
Definition loss_fn (Src : Type) : Type :=
  Nets T → Args T → Tensor T → Labels → Labels →
  option Src → option Src → option (Masks T) → py (list event) (T * Munch T).

(** What the loop takes from outside: the fetcher ([next(fetcher)] is its
    next item, [len(fetcher.loader)] its items per epoch), the functions
    that the live modules compute with the parameters of the moment, the
    effect on the parameters of [scaler.scale(loss).backward()] followed
    by the steps of the named optimizers, and the two loss functions that
    the names [compute_d_loss] and [compute_g_loss] are bound to. *)
Context (fetcher : nat → Batch) (iters_per_epoch : nat).
Context (callable : gmap string Module_ → Store T → Nets T).
Context (backward_and_step : list string → T → Store T → Store T).
Context (d_loss_fn : loss_fn (Tensor T)) (g_loss_fn : loss_fn (list (Tensor T))).

(** A loss computation inside the run; its trace is not kept. *)
Definition run_loss {A} (m : py (list event) A) : py (World T) A :=
  λ w, ((m []).1, w).

(** [ensemble.name] *)
Definition attr (ensemble : gmap string Module_) (name : string) : py (World T) Module_ :=
  match ensemble !! name with
  | Some m => mret m
  | None => raise AttributeError
  end.

(** [for key, value in loss.items(): all_losses[prefix + key] = value] *)
Definition add_prefixed (prefix : string) (loss : Munch T) (all_losses : Munch T) : Munch T :=
  map_fold (λ key value acc, <[prefix +:+ key := value]> acc) all_losses loss.

(** The dictionary [all_losses] that one batch builds, from an empty one. *)
Definition collect_losses (d_losses_latent g_losses_latent : Munch T) (lambda_ds_now : T)
    : Munch T :=
  <["G/lambda_ds" := lambda_ds_now]>
    (add_prefixed "G/latent_" g_losses_latent
       (add_prefixed "D/latent_" d_losses_latent ∅)).

(** [if args.lambda_ds > 0: args.lambda_ds -= (initial_lambda_ds / args.ds_epoch)] *)
Definition decay_lambda_ds (initial_lambda_ds : T) : py (World T) () :=
  w ← get;
  let args := w_args w in
  if num_ltb num_zero (lambda_ds args) then
    step ← lift_result (num_div initial_lambda_ds (ds_epoch args));
    modify (set_args (set_lambda_ds (num_sub (lambda_ds args) step)))
  else mret ().

(** A computation on the parameters inside the run. *)
Definition on_store {A} (m : py (Store T) A) : py (World T) A :=
  λ w, let '(r, σ) := m (w_store w) in (r, set_store (λ _, σ) w).

(** [if args.ema: moving_average(...)] for the three shadowed networks. *)
Definition ema_update (self : Solver T) : py (World T) () :=
  w ← get;
  if ema (w_args w) then
    for_each ["generator"; "mapping_network"; "style_encoder"] (λ name,
      model ← attr (nets self) name;
      model_test ← attr (nets_ema self) name;
      on_store (moving_average model model_test (num_of_Q (999 # 1000))))
  else mret ().

(** One turn of the inner loop of [Solver.train]; it returns the
    [all_losses] it has bound. *)
Definition train_batch (self : Solver T) (initial_lambda_ds : T) : py (World T) (Munch T) :=
  (* Fetch batch *)
  w ← get;
  let inputs := fetcher (w_fetched w) in
  modify (set_fetched S);;
  let x_real := inputs_x_src inputs in
  let y_org := inputs_y_src inputs in
  let y_trg := inputs_y_ref inputs in
  let z_trg := inputs_z_trg inputs in
  let z_trg2 := inputs_z_trg2 inputs in
  masks ← run_loss (heatmap_if_enabled (callable (nets self) (w_store w)) (w_args w) x_real);
  (* Discriminator step *)
  '(d_loss, d_losses_latent) ←
    run_loss (d_loss_fn (callable (nets self) (w_store w)) (w_args w)
                x_real y_org y_trg (Some z_trg) None masks);
  modify (set_store (backward_and_step ["discriminator"] d_loss));;
  (* Generator step *)
  w ← get;
  '(g_loss, g_losses_latent) ←
    run_loss (g_loss_fn (callable (nets self) (w_store w)) (w_args w)
                x_real y_org y_trg (Some [z_trg; z_trg2]) None masks);
  modify (set_store
    (backward_and_step ["generator"; "mapping_network"; "style_encoder"] g_loss));;
  (* Collect and display losses *)
  let all_losses := collect_losses d_losses_latent g_losses_latent (lambda_ds (w_args w)) in
  (* EMA update and lambda decay *)
  ema_update self;;
  decay_lambda_ds initial_lambda_ds;;
  mret all_losses.

(** [for batch_idx in range(iters_per_epoch): ...]; the local [all_losses]
    keeps its last binding, if any. *)
Fixpoint batch_loop (self : Solver T) (initial_lambda_ds : T) (n : nat)
    (all_losses : option (Munch T)) : py (World T) (option (Munch T)) :=
  match n with
  | O => mret all_losses
  | S n' =>
      all_losses' ← train_batch self initial_lambda_ds;
      batch_loop self initial_lambda_ds n' (Some all_losses')
  end.

(** [epoch % every == 0] *)
Definition is_multiple (epoch every : Z) : py (World T) bool :=
  if bool_decide (every = 0%Z) then raise ZeroDivisionError
  else mret (bool_decide ((epoch `mod` every)%Z = 0%Z)).

(** One turn of the outer loop: the batches, then logging, saving and
    evaluating. *)
Definition train_epoch (self : Solver T) (initial_lambda_ds : T)
    (all_losses : option (Munch T)) (epoch : Z) : py (World T) (option (Munch T)) :=
  all_losses ← batch_loop self initial_lambda_ds iters_per_epoch all_losses;
  w ← get;
  let args := w_args w in
  log_now ← is_multiple epoch (wandb_log args);
  when log_now
    match all_losses with
    | Some losses => emit (WandbLog losses epoch)
    | None => raise UnboundLocalError
    end;;
  save_now ← is_multiple epoch (save_every args);
  when save_now (_save_checkpoint self epoch);;
  eval_now ← is_multiple epoch (eval_every args);
  when eval_now
    (emit (CalculateMetrics (nets self) epoch "latent");;
     emit (CalculateMetrics (nets self) epoch "reference"));;
  mret all_losses.

Fixpoint epoch_loop (self : Solver T) (initial_lambda_ds : T) (epochs : list Z)
    (all_losses : option (Munch T)) : py (World T) (option (Munch T)) :=
  match epochs with
  | [] => mret all_losses
  | epoch :: epochs' =>
      all_losses' ← train_epoch self initial_lambda_ds all_losses epoch;
      epoch_loop self initial_lambda_ds epochs' all_losses'
  end.

(** [range(start_epoch, num_epochs)] *)
Definition epoch_range (args : Args T) : list Z :=
  let start_epoch := if (0 <? resume_epoch args)%Z then resume_epoch args else 0%Z in
  seqZ start_epoch (num_epochs args - start_epoch).

(** [Solver.train(loaders)].  ([optims = self.optims] fails outside train
    mode; the validation batch fetched at the start is not used.) *)
Definition train (self : Solver T) : py (World T) () :=
  w ← get;
  let args := w_args w in
  match optims self with
  | None => raise AttributeError
  | Some _ =>
      let initial_lambda_ds := lambda_ds args in
      epoch_loop self initial_lambda_ds (epoch_range args) None;;
      mret ()
  end.

End Train.
Arguments Batch T : clear implicits.
Arguments loss_fn T Src : clear implicits.

(** [Solver.train] with the two loss functions of the module. *)
Definition Solver_train {T : Type} `{PyNum T}
    (binary_cross_entropy_with_logits : list T → list T → T)
    (fetcher : nat → Batch T) (iters_per_epoch : nat)
    (callable : gmap string Module_ → Store T → Nets T)
    (backward_and_step : list string → T → Store T → Store T)
    (self : Solver T) : py (World T) () :=
  train fetcher iters_per_epoch callable backward_and_step
    (compute_d_loss binary_cross_entropy_with_logits)
    (compute_g_loss binary_cross_entropy_with_logits) self.

(** ** A small instance *)

(** Networks on one-pixel images, a stand-in for the cross entropy and a
    configuration, to run the definitions on. *)
Module Toy.
Section Toy.
Context {T : Type} `{PyNum T}.

Definition image (v : Q) : Tensor T := {| data := [num_of_Q v]; requires_grad := false |}.

Definition nets : Nets T := {|
  generator := λ x s _, {| data := zip_with num_add (data x) (data s); requires_grad := true |};
  mapping_network := λ z _, {| data := data z; requires_grad := true |};
  style_encoder := λ x _, {| data := data x; requires_grad := true |};
  discriminator := λ x _, {| data := data x; requires_grad := true |};
  fan := None;
|}.

Definition bce (logits targets : list T) : T := tmean (abs_diff logits targets).

Definition args (mode_ : string) (lambda_ds_ ds_epoch_ : Q) : Args T := {|
  mode := mode_;
  checkpoint_dir := "expr/checkpoints";
  result_dir := "expr/results";
  lr := num_of_Q (1 # 10000);
  f_lr := num_of_Q (1 # 1000000);
  beta1 := num_of_Q 0;
  beta2 := num_of_Q (99 # 100);
  weight_decay := num_of_Q (1 # 10000);
  lambda_reg := num_of_Q 1;
  lambda_sty := num_of_Q 1;
  lambda_ds := num_of_Q lambda_ds_;
  lambda_cyc := num_of_Q 1;
  w_hpf := num_of_Q 0;
  ds_epoch := num_of_Q ds_epoch_;
  ema := true;
  num_epochs := 1;
  resume_epoch := 0;
  wandb_log := 1;
  save_every := 1;
  eval_every := 1;
|}.

(** Live modules with parameters 1, 3, 5 and 7, and their shadows. *)
Definition ensembles : gmap string Module_ * gmap string Module_ :=
  ({[ "generator" := [1%positive]; "mapping_network" := [3%positive];
      "style_encoder" := [5%positive]; "discriminator" := [7%positive] ]},
   {[ "generator" := [2%positive]; "mapping_network" := [4%positive];
      "style_encoder" := [6%positive] ]}).

Definition world (args_ : Args T) : World T := {|
  w_args := args_;
  w_store := {[ 1%positive := [num_of_Q 1]; 2%positive := [num_of_Q 0];
                3%positive := [num_of_Q 1]; 4%positive := [num_of_Q 0];
                5%positive := [num_of_Q 1]; 6%positive := [num_of_Q 0];
                7%positive := [num_of_Q 1] ]};
  w_fs := ∅;
  w_fetched := 0;
  w_effects := [];
|}.

(** The [n]-th batch: its source image is one pixel of value [first + 2 n]
    for [n > 0], and [first] for the batch 0. *)
Definition fetcher (first : Q) (n : nat) : Batch T := {|
  inputs_x_src := image (match n with O => first | _ => 5 + 2 * inject_Z (Z.of_nat n) end);
  inputs_y_src := [0%Z];
  inputs_x_ref := image 3;
  inputs_x_ref2 := image 4;
  inputs_y_ref := [1%Z];
  inputs_z_trg := image 1;
  inputs_z_trg2 := image 2;
|}.

Definition callable (_ : gmap string Module_) (_ : Store T) : Nets T := nets.

Definition backward_and_step (_ : list string) (_ : T) (σ : Store T) : Store T := σ.

End Toy.
End Toy.

(** [args] with other values for [num_epochs] and [resume_epoch]. *)
Definition with_epochs {T : Type} (num_epochs_ resume_epoch_ : Z) (a : Args T) : Args T :=
  {| mode := mode a; checkpoint_dir := checkpoint_dir a; result_dir := result_dir a;
     lr := lr a; f_lr := f_lr a; beta1 := beta1 a; beta2 := beta2 a;
     weight_decay := weight_decay a;
     lambda_reg := lambda_reg a; lambda_sty := lambda_sty a; lambda_ds := lambda_ds a;
     lambda_cyc := lambda_cyc a; w_hpf := w_hpf a; ds_epoch := ds_epoch a;
     ema := ema a; num_epochs := num_epochs_; resume_epoch := resume_epoch_;
     wandb_log := wandb_log a; save_every := save_every a;
     eval_every := eval_every a |}.

(** * Properties *)

(** ** Reasoning about computations *)

Lemma bind_Ok_inv {S A B} (m : py S A) (f : A → py S B) s b s' :
  (m ≫= f) s = (Ok b, s') → ∃ a s1, m s = (Ok a, s1) ∧ f a s1 = (Ok b, s').
Proof.
  unfold mbind, py_bind. destruct (m s) as [[a|e] s1]; [eauto|done].
Qed.

Lemma bind_Ok {S A B} (m : py S A) (f : A → py S B) s a s1 :
  m s = (Ok a, s1) → (m ≫= f) s = f a s1.
Proof. unfold mbind, py_bind. by intros ->. Qed.

Lemma bind_Raise {S A B} (m : py S A) (f : A → py S B) s e s1 :
  m s = (Raise e, s1) → (m ≫= f) s = (Raise e, s1).
Proof. unfold mbind, py_bind. by intros ->. Qed.

(** Unfolds the primitives of the monad in the goal. *)
Ltac py_unfold :=
  unfold mbind, mret, py_bind, py_ret, raise, get, modify, lift_result,
    py_assert, when, forward, emit, run_loss; simpl.

(** *** What a computation preserves, however it ends *)


Section Relates.
Context {S : Type} (R : relation S) `{!PreOrder R}.

Lemma relates_ret {A} (a : A) : relates R (mret a : py S A).
Proof. intros s r s' [= <- <-]. reflexivity. Qed.

Lemma relates_raise {A} (e : exn) : relates R (raise e : py S A).
Proof. intros s r s' [= <- <-]. reflexivity. Qed.

Lemma relates_get : relates R (get : py S S).
Proof. intros s r s' [= <- <-]. reflexivity. Qed.

Lemma relates_lift_result {A} (x : result A) : relates R (lift_result x : py S A).
Proof. intros s r s' [= <- <-]. reflexivity. Qed.

Lemma relates_modify (f : S → S) : (∀ s, R s (f s)) → relates R (modify f).
Proof. intros Hf s r s' [= <- <-]. apply Hf. Qed.

Lemma relates_bind {A B} (m : py S A) (k : A → py S B) :
  relates R m → (∀ a, relates R (k a)) → relates R (m ≫= k).
Proof.
  intros Hm Hk s r s'. unfold mbind, py_bind.
  destruct (m s) as [[a|e] s1] eqn:Hms.
  - intros Hks. transitivity s1; [by eapply Hm|by eapply Hk].
  - intros [= <- <-]. by eapply Hm.
Qed.

(** The same, when what the first computation returns is known. *)
Lemma relates_bind_with {A B} (P : A → Prop) (m : py S A) (k : A → py S B) :
  relates R m → (∀ s a s', m s = (Ok a, s') → P a) →
  (∀ a, P a → relates R (k a)) → relates R (m ≫= k).
Proof.
  intros Hm HP Hk s r s'. unfold mbind, py_bind.
  destruct (m s) as [[a|e] s1] eqn:Hms.
  - intros Hks. transitivity s1; [by eapply Hm|]. eapply Hk; [by eapply HP|done].
  - intros [= <- <-]. by eapply Hm.
Qed.

Lemma relates_when (c : bool) (body : py S ()) : relates R body → relates R (when c body).
Proof. destruct c; [done|]. intros _. apply relates_ret. Qed.

Lemma relates_for_each {A} (xs : list A) (body : A → py S ()) :
  (∀ x, relates R (body x)) → relates R (for_each xs body).
Proof.
  intros Hbody. induction xs as [|x xs IH]; simpl; [apply relates_ret|].
  apply relates_bind; [apply Hbody|]. intros _. apply IH.
Qed.

End Relates.

(** ** Exact arithmetic *)

(** Rewrites the operations of the interface at [Q] into those of [Q]. *)
Ltac q_ops :=
  change (@num_zero Q Q_num) with 0%Q in *;
  change (@num_add Q Q_num) with Qplus in *;
  change (@num_sub Q Q_num) with Qminus in *;
  change (@num_mul Q Q_num) with Qmult in *;
  change (@num_quot Q Q_num) with Qdiv in *;
  change (@num_abs Q Q_num) with Qabs in *;
  change (@num_ltb Q Q_num) with Qltb in *;
  change (@num_eqb Q Q_num) with Qeq_bool in *.

Lemma Qltb_false (x y : Q) : Qltb x y = false ↔ (y <= x)%Q.
Proof. unfold Qltb. by rewrite negb_false_iff, Qle_bool_iff. Qed.




Global Instance Q_signs : PyNumSigns Q.
Proof.
  split; unfold not_negative; q_ops.
  - intros x. apply Qltb_false, Qabs_nonneg.
  - by apply Qltb_false.
  - intros x y Hx%Qltb_false Hy%Qltb_false. apply Qltb_false. lra.
  - intros x n Hx%Qltb_false. apply Qltb_false.
    change (@num_of_Q Q Q_num (inject_Z (Z.of_nat n))) with (inject_Z (Z.of_nat n)).
    unfold Qdiv. apply Qmult_le_0_compat; [done|].
    apply Qinv_le_0_compat. unfold Qle. simpl. lia.
Qed.

(** ** Signs in binary64 *)

Lemma SFltb_zero (f : spec_float) :
  SFltb f (S754_zero false) = negb (sf_not_negative f).
Proof. by destruct f as [[]|[]| |[] m e]. Qed.

Lemma float_not_negative (x : float) :
  not_negative x ↔ sf_not_negative (Prim2SF x) = true.
Proof.
  unfold not_negative. simpl. rewrite FloatAxioms.ltb_spec.
  change (Prim2SF zero) with (S754_zero false). rewrite SFltb_zero.
  by destruct (sf_not_negative _).
Qed.

Lemma binary_round_aux_sign mx ex lx :
  let f := binary_round_aux prec emax false mx ex lx in
  sf_sign_clear f = true ∧ sf_not_negative f = true.
Proof.
  unfold binary_round_aux.
  destruct (shr_fexp _ _ _ _ _) as [mrs' e'].
  destruct (shr_fexp _ _ _ _ _) as [mrs'' e''].
  by destruct (shr_m mrs''); [| destruct (Z.leb _ _) |].
Qed.

Lemma binary_round_sign m e :
  let f := binary_round prec emax false m e in
  sf_sign_clear f = true ∧ sf_not_negative f = true.
Proof.
  unfold binary_round. destruct (shl_align _ _ _) as [mz ez].
  apply binary_round_aux_sign.
Qed.

Lemma binary_normalize_sign (m e : Z) :
  (0 ≤ m)%Z → sf_sign_clear (binary_normalize prec emax m e false) = true.
Proof.
  intros Hm. destruct m as [|p|p]; [done| |lia]. apply binary_round_sign.
Qed.

Lemma SFadd_not_negative (x y : spec_float) :
  sf_not_negative x = true → sf_not_negative y = true →
  sf_not_negative (SFadd prec emax x y) = true.
Proof.
  destruct x as [[]|[]| |[] mx ex], y as [[]|[]| |[] my ey]; try done.
  intros _ _. unfold SFadd. cbn [cond_Zopp].
  destruct (Z.add _ _) eqn:Hsum; [done| |discriminate Hsum].
  apply binary_round_sign.
Qed.

Lemma SFdiv_not_negative (x y : spec_float) :
  sf_not_negative x = true → sf_sign_clear y = true →
  sf_not_negative (SFdiv prec emax x y) = true.
Proof.
  destruct x as [[]|[]| |[] mx ex], y as [[]|[]| |[] my ey]; try done.
  intros _ _. unfold SFdiv.
  destruct (SFdiv_core_binary _ _ _ _ _ _) as [[mz ez] lz].
  apply binary_round_aux_sign.
Qed.

Lemma SFdiv_sign_clear (x y : spec_float) :
  sf_sign_clear x = true → sf_sign_clear y = true →
  sf_sign_clear (SFdiv prec emax x y) = true.
Proof.
  destruct x as [[]|[]| |[] mx ex], y as [[]|[]| |[] my ey]; try done.
  intros _ _. unfold SFdiv.
  destruct (SFdiv_core_binary _ _ _ _ _ _) as [[mz ez] lz].
  apply binary_round_aux_sign.
Qed.

Lemma float_of_Z_sign_clear (z : Z) :
  (0 ≤ z)%Z → sf_sign_clear (Prim2SF (float_of_Z z)) = true.
Proof.
  intros Hz. assert (float_of_Z z = of_uint63 (Uint63.of_Z z)) as ->
    by (destruct z; [done|done|lia]).
  rewrite FloatAxioms.of_uint63_spec. apply binary_normalize_sign.
  apply Uint63.to_Z_bounded.
Qed.

Global Instance float_signs : PyNumSigns float.
Proof.
  split.
  - intros x. apply float_not_negative. simpl. rewrite FloatAxioms.abs_spec.
    by destruct (Prim2SF x) as [[]|[]| |[] m e].
  - by apply float_not_negative.
  - intros x y Hx%float_not_negative Hy%float_not_negative.
    apply float_not_negative. simpl. rewrite FloatAxioms.add_spec. by apply SFadd_not_negative.
  - intros x n Hx%float_not_negative. apply float_not_negative. simpl.
    rewrite !FloatAxioms.div_spec. apply SFdiv_not_negative; [done|].
    apply SFdiv_sign_clear; [apply float_of_Z_sign_clear; lia|reflexivity].
Qed.

(** ** The moving average *)

Section MovingAverageFacts.
Context {T : Type} `{PyNum T}.
Implicit Types (σ : Store T) (beta : T).


Lemma ema_assign_frame beta σ σ' pq r res :
  ema_assign beta pq σ = (res, σ') → r ≠ pq.2 → σ' !! r = σ !! r.
Proof.
  unfold ema_assign. py_unfold.
  destruct (σ !! pq.1) as [a|], (σ !! pq.2) as [b|]; py_unfold;
    try (by intros [= <- <-]).
  destruct (lerp a b beta); intros [= <- <-] Hne; [|done].
  by rewrite lookup_insert_ne.
Qed.

Lemma ema_assign_dom beta σ σ' pq res :
  ema_assign beta pq σ = (res, σ') → dom σ' = dom σ.
Proof.
  unfold ema_assign. py_unfold.
  destruct (σ !! pq.1) as [a|], (σ !! pq.2) as [b|] eqn:Hq; py_unfold;
    try (by intros [= <- <-]).
  destruct (lerp a b beta); intros [= <- <-]; [|done].
  by apply dom_insert_lookup_L.
Qed.



End MovingAverageFacts.




(** ** The losses *)

Section LossFacts.
Context {T : Type} `{PyNum T}.
Context (bce : list T → list T → T).

(** With [x_refs] left at [None], the second unpacking of
    [compute_g_loss] raises before any network is called. *)
Lemma compute_g_loss_body_None (nets : Nets T) args x_real y_org y_trg z_trg z_trg2 masks tr :
  compute_g_loss_body bce nets args x_real y_org y_trg (Some [z_trg; z_trg2]) None masks tr
  = (Raise TypeError, tr).
Proof. reflexivity. Qed.

(** When the body of [compute_g_loss] reaches its [return], both
    arguments were lists of two, and the locals are these. *)
Lemma compute_g_loss_body_Ok (nets : Nets T) args x_real y_org y_trg z_trgs x_refs masks tr fr tr' :
  compute_g_loss_body bce nets args x_real y_org y_trg z_trgs x_refs masks tr = (Ok fr, tr') →
  ∃ z_trg z_trg2 x_ref x_ref2,
    z_trgs = Some [z_trg; z_trg2] ∧ x_refs = Some [x_ref; x_ref2] ∧
    g_s_trg fr = mapping_network nets z_trg y_trg ∧
    g_x_fake fr = generator nets x_real (g_s_trg fr) masks ∧
    g_s_trg2 fr = mapping_network nets z_trg2 y_trg ∧
    g_x_fake2 fr = detach (generator nets x_real (g_s_trg2 fr) masks) ∧
    g_loss_ds fr = mean_abs_diff (g_x_fake fr) (g_x_fake2 fr) ∧
    g_loss_ds_requires_grad fr = tracks (g_x_fake fr) (g_x_fake2 fr) ∧
    (let out := discriminator nets (g_x_fake fr) y_trg in
     g_loss_adv fr = bce (data out) (replicate (length (data out)) (num_of_Z 1))) ∧
    g_loss_sty fr = mean_abs_diff (style_encoder nets (g_x_fake fr) y_trg)
                                  (style_encoder nets x_ref y_trg) ∧
    (let masks_cyc := if num_ltb num_zero (w_hpf args)
                      then (λ get_heatmap, get_heatmap (g_x_fake fr)) <$> fan nets
                      else None in
     g_loss_cyc fr = mean_abs_diff
                       (generator nets (g_x_fake fr) (style_encoder nets x_real y_org)
                          masks_cyc) x_real).
Proof.
  unfold compute_g_loss_body. intros Hret.
  destruct z_trgs as [[|z_trg [|z_trg2 [|]]]|]; try discriminate Hret.
  destruct x_refs as [[|x_ref [|x_ref2 [|]]]|]; try discriminate Hret.
  exists z_trg, z_trg2, x_ref, x_ref2.
  revert Hret. py_unfold. unfold heatmap_if_enabled.
  destruct (num_ltb num_zero (w_hpf args)); [destruct (fan nets)|];
    py_unfold; intros [= <- _]; simpl; done.
Qed.

Lemma tsum_abs_diff_not_negative `{!PyNumSigns T} (a b : list T) :
  not_negative (tsum (abs_diff a b)).
Proof.
  unfold abs_diff, tsum. revert b.
  induction a as [|x a IH]; intros [|y b]; cbn [zip_with foldr];
    try apply zero_not_negative.
  apply add_not_negative; [apply abs_not_negative|apply IH].
Qed.

(** A mean of absolute differences is not negative. *)
Lemma mean_abs_diff_not_negative `{!PyNumSigns T} (a b : Tensor T) :
  not_negative (mean_abs_diff a b).
Proof.
  unfold mean_abs_diff, tmean, num_of_Z.
  apply quot_count_not_negative, tsum_abs_diff_not_negative.
Qed.

End LossFacts.

(** C1.  The call of the generator phase,
    [compute_g_loss(nets, args, x_real, y_org, y_trg,
    z_trgs=[z_trg, z_trg2], masks=masks)], leaves [x_refs] at [None]:
    the unpacking [x_ref, x_ref2 = x_refs] raises [TypeError], before any
    forward pass, so neither the loss nor its breakdown is returned. *)
Theorem compute_g_loss_without_x_refs_raises {T : Type} `{PyNum T}
    (bce : list T → list T → T) (nets : Nets T) (args : Args T)
    (x_real : Tensor T) (y_org y_trg : Labels) (z_trg z_trg2 : Tensor T)
    (masks : option (Masks T)) (tr : list event) :
  compute_g_loss bce nets args x_real y_org y_trg (Some [z_trg; z_trg2]) None masks tr
  = (Raise TypeError, tr).
Proof.
  unfold compute_g_loss.
  by rewrite (bind_Raise _ _ _ _ _ (compute_g_loss_body_None bce nets args _ _ _ _ _ _ _)).
Qed.

(** C2.  [compute_d_loss] checks its style sources first: with both or
    neither of [z_trg] and [x_ref] it raises [AssertionError] and the
    trace of forward passes and loss evaluations is as it was; with
    exactly one it passes the check, runs the four forward passes and the
    two loss evaluations, and returns. *)
Theorem compute_d_loss_style_source_check {T : Type} `{PyNum T}
    (bce : list T → list T → T) (nets : Nets T) (args : Args T)
    (x_real : Tensor T) (y_org y_trg : Labels) (z_trg x_ref : option (Tensor T))
    (masks : option (Masks T)) (tr : list event) :
  match z_trg, x_ref with
  | Some _, Some _ | None, None =>
      compute_d_loss bce nets args x_real y_org y_trg z_trg x_ref masks tr
      = (Raise AssertionError, tr)
  | Some _, None =>
      ∃ loss losses,
        compute_d_loss bce nets args x_real y_org y_trg z_trg x_ref masks tr
        = (Ok (loss, losses),
           tr ++ [Forward "discriminator"; CrossEntropy; Forward "mapping_network";
                  Forward "generator"; Forward "discriminator"; CrossEntropy])
  | None, Some _ =>
      ∃ loss losses,
        compute_d_loss bce nets args x_real y_org y_trg z_trg x_ref masks tr
        = (Ok (loss, losses),
           tr ++ [Forward "discriminator"; CrossEntropy; Forward "style_encoder";
                  Forward "generator"; Forward "discriminator"; CrossEntropy])
  end.
Proof.
  destruct z_trg as [z|], x_ref as [x|]; try reflexivity;
    eexists _, _; unfold compute_d_loss; py_unfold; unfold adv_loss; py_unfold;
    rewrite <- !app_assoc; reflexivity.
Qed.

(** C7.  Whenever [compute_g_loss] returns, in any arithmetic: the
    breakdown holds, under the names [adv], [sty], [ds] and [cyc] and no
    other, the cross entropy of the discriminator's verdict on the
    generated image against the target 1, the mean absolute difference
    of the style read off the generated image and the style read off the
    first reference image, the mean absolute difference of the generated
    image and the detached second generated image, and the mean absolute
    difference of the reconstruction and the real image; and the total
    is [adv + lambda_sty * sty - lambda_ds * ds + lambda_cyc * cyc],
    with the operations in the order of the source. *)
Theorem compute_g_loss_total {T : Type} `{PyNum T} (bce : list T → list T → T)
    (nets : Nets T) (args : Args T) (x_real : Tensor T) (y_org y_trg : Labels)
    (z_trgs x_refs : option (list (Tensor T))) (masks : option (Masks T))
    (tr tr' : list event) (loss : T) (losses : Munch T) :
  compute_g_loss bce nets args x_real y_org y_trg z_trgs x_refs masks tr
    = (Ok (loss, losses), tr') →
  ∃ z_trg z_trg2 x_ref x_ref2 : Tensor T,
    z_trgs = Some [z_trg; z_trg2] ∧ x_refs = Some [x_ref; x_ref2] ∧
    let x_fake := generator nets x_real (mapping_network nets z_trg y_trg) masks in
    let x_fake2 :=
      detach (generator nets x_real (mapping_network nets z_trg2 y_trg) masks) in
    let out := discriminator nets x_fake y_trg in
    let masks_cyc := if num_ltb num_zero (w_hpf args)
                     then (λ get_heatmap, get_heatmap x_fake) <$> fan nets
                     else None in
    let x_rec := generator nets x_fake (style_encoder nets x_real y_org) masks_cyc in
    let adv := bce (data out) (replicate (length (data out)) (num_of_Z 1)) in
    let sty := mean_abs_diff (style_encoder nets x_fake y_trg)
                             (style_encoder nets x_ref y_trg) in
    let ds := mean_abs_diff x_fake x_fake2 in
    let cyc := mean_abs_diff x_rec x_real in
    losses = {[ "adv" := adv; "sty" := sty; "ds" := ds; "cyc" := cyc ]} ∧
    dom losses = {[ "adv"; "sty"; "ds"; "cyc" ]} ∧
    loss = num_add
             (num_sub (num_add adv (num_mul (lambda_sty args) sty))
                      (num_mul (lambda_ds args) ds))
             (num_mul (lambda_cyc args) cyc).
Proof.
  unfold compute_g_loss. intros Hret.
  apply bind_Ok_inv in Hret as (fr & tr1 & Hbody & Hret).
  injection Hret as <- <- _.
  apply compute_g_loss_body_Ok in Hbody
    as (z_trg & z_trg2 & x_ref & x_ref2 & -> & -> & Hs & Hx & Hs2 & Hx2 & Hds & _
        & Hadv & Hsty & Hcyc).
  rewrite Hs in Hx. rewrite Hs2 in Hx2. rewrite Hx, Hx2 in Hds.
  rewrite Hx in Hadv, Hsty, Hcyc. cbv zeta in Hadv, Hcyc.
  exists z_trg, z_trg2, x_ref, x_ref2. split; [done|]. split; [done|].
  cbv zeta. unfold g_total. rewrite Hadv, Hsty, Hds, Hcyc.
  split; [done|]. split; [|done].
  rewrite !dom_insert_L, dom_singleton_L. set_solver.
Qed.

(** C7 on the small instance in binary64, with reference images supplied:
    the terms are 5, 3, 1 and 6, and the total is 5 + 3 - 1 + 6. *)
Lemma compute_g_loss_total_witness :
  let refs : option (list (Tensor float)) := Some [Toy.image 3; Toy.image 4] in
  let zs : option (list (Tensor float)) := Some [Toy.image 1; Toy.image 2] in
  ∃ (loss : float) (losses : Munch float),
    (compute_g_loss Toy.bce Toy.nets (Toy.args "train" 1 4) (Toy.image 5) [0%Z] [1%Z]
       zs refs None []).1 = Ok (loss, losses) ∧
    dom losses = {[ "adv"; "sty"; "ds"; "cyc" ]} ∧
    losses !! "adv" = Some 5%float ∧ losses !! "sty" = Some 3%float ∧
    losses !! "ds" = Some 1%float ∧ losses !! "cyc" = Some 6%float ∧
    loss = 13%float.
Proof.
  intros refs zs.
  destruct (compute_g_loss Toy.bce Toy.nets (Toy.args "train" 1 4) (Toy.image 5)
              [0%Z] [1%Z] zs refs None [])
    as [[[loss losses]|e] tr'] eqn:Hrun; [|vm_compute in Hrun; discriminate Hrun].
  destruct (compute_g_loss_total _ _ _ _ _ _ _ _ _ _ _ _ _ Hrun)
    as (z_trg & z_trg2 & x_ref & x_ref2 & Hz & Hx & Hlosses & Hdom & Hloss).
  injection Hz as <- <-. injection Hx as <- <-.
  exists loss, losses. split; [reflexivity|]. split; [exact Hdom|].
  rewrite Hlosses, Hloss. repeat split; vm_compute; reflexivity.
Defined.

(** C8.  Whenever [compute_g_loss] returns, in any arithmetic that has
    the usual signs: the two images of the diversity term are generated
    from the same [x_real] and masks, the first with the style code
    mapped from the first latent vector and the second with the style
    code mapped from the second; the second one is the detached tensor,
    which autograd does not track, so the term is tracked exactly when
    the first image is; the [ds] entry of the breakdown is the mean
    absolute difference of the two, and it is not negative. *)
Theorem compute_g_loss_diversity {T : Type} `{PyNumSigns T} (bce : list T → list T → T)
    (nets : Nets T) (args : Args T) (x_real : Tensor T) (y_org y_trg : Labels)
    (z_trgs x_refs : option (list (Tensor T))) (masks : option (Masks T))
    (tr tr' : list event) (loss : T) (losses : Munch T) :
  compute_g_loss bce nets args x_real y_org y_trg z_trgs x_refs masks tr
    = (Ok (loss, losses), tr') →
  ∃ (z_trg z_trg2 : Tensor T) (fr : GFrame T),
    z_trgs = Some [z_trg; z_trg2] ∧
    compute_g_loss_body bce nets args x_real y_org y_trg z_trgs x_refs masks tr
      = (Ok fr, tr') ∧
    g_x_fake fr = generator nets x_real (mapping_network nets z_trg y_trg) masks ∧
    g_x_fake2 fr
      = detach (generator nets x_real (mapping_network nets z_trg2 y_trg) masks) ∧
    requires_grad (g_x_fake2 fr) = false ∧
    g_loss_ds fr = mean_abs_diff (g_x_fake fr) (g_x_fake2 fr) ∧
    g_loss_ds_requires_grad fr = requires_grad (g_x_fake fr) ∧
    losses !! "ds" = Some (g_loss_ds fr) ∧
    not_negative (g_loss_ds fr).
Proof.
  unfold compute_g_loss. intros Hret.
  apply bind_Ok_inv in Hret as (fr & tr1 & Hbody & Hret).
  injection Hret as <- <- <-.
  pose proof (compute_g_loss_body_Ok _ _ _ _ _ _ _ _ _ _ _ _ Hbody)
    as (z_trg & z_trg2 & x_ref & x_ref2 & -> & -> & Hs & Hx & Hs2 & Hx2 & Hds & Hgrad & _).
  exists z_trg, z_trg2, fr.
  split; [done|]. split; [exact Hbody|].
  split; [by rewrite Hx, Hs|]. split; [by rewrite Hx2, Hs2|].
  split; [by rewrite Hx2|]. split; [exact Hds|].
  split; [by rewrite Hgrad, Hx2; unfold tracks; simpl; rewrite orb_false_r|].
  split; [done|]. rewrite Hds. apply mean_abs_diff_not_negative.
Qed.

(** C8 on the small instance in binary64: the two images are 5 + 1 and
    5 + 2, and the diversity term is 1. *)
Lemma compute_g_loss_diversity_witness :
  let refs : option (list (Tensor float)) := Some [Toy.image 3; Toy.image 4] in
  let zs : option (list (Tensor float)) := Some [Toy.image 1; Toy.image 2] in
  ∃ (fr : GFrame float),
    data (g_x_fake fr) = [6%float] ∧ data (g_x_fake2 fr) = [7%float] ∧
    requires_grad (g_x_fake2 fr) = false ∧
    g_loss_ds_requires_grad fr = true ∧
    not_negative (g_loss_ds fr) ∧ g_loss_ds fr = 1%float.
Proof.
  intros refs zs.
  destruct (compute_g_loss Toy.bce Toy.nets (Toy.args "train" 1 4) (Toy.image 5)
              [0%Z] [1%Z] zs refs None [])
    as [[[loss losses]|e] tr'] eqn:Hrun; [|vm_compute in Hrun; discriminate Hrun].
  destruct (compute_g_loss_diversity _ _ _ _ _ _ _ _ _ _ _ _ _ Hrun)
    as (z_trg & z_trg2 & fr & Hz & _ & Hx & Hx2 & Hdetached & Hds & Hgrad & _ & Hsign).
  injection Hz as <- <-.
  exists fr. split; [rewrite Hx; vm_compute; reflexivity|].
  split; [rewrite Hx2; vm_compute; reflexivity|]. split; [exact Hdetached|].
  split; [rewrite Hgrad, Hx; reflexivity|]. split; [exact Hsign|].
  rewrite Hds, Hx, Hx2. vm_compute. reflexivity.
Defined.

(** The diversity term in binary64 on an empty batch of images, and on an
    image with an infinite pixel: it is NaN, of which [0 <= ds] is
    false. *)
Lemma compute_g_loss_diversity_nan :
  let refs : option (list (Tensor float)) := Some [Toy.image 3; Toy.image 4] in
  let zs : option (list (Tensor float)) := Some [Toy.image 1; Toy.image 2] in
  let empty : Tensor float := {| data := []; requires_grad := false |} in
  let bright : Tensor float := {| data := [infinity]; requires_grad := false |} in
  (∃ (loss ds : float) (losses : Munch float),
     (compute_g_loss Toy.bce Toy.nets (Toy.args "train" 1 4) empty [0%Z] [1%Z]
        (Some [empty; empty]) (Some [empty; empty]) None []).1 = Ok (loss, losses) ∧
     losses !! "ds" = Some ds ∧ PrimFloat.leb 0 ds = false) ∧
  (∃ (loss ds : float) (losses : Munch float),
     (compute_g_loss Toy.bce Toy.nets (Toy.args "train" 1 4) bright [0%Z] [1%Z]
        zs refs None []).1 = Ok (loss, losses) ∧
     losses !! "ds" = Some ds ∧ PrimFloat.leb 0 ds = false).
Proof.
  intros refs zs empty bright.
  split; eexists _, _, _;
    (split; [vm_compute; reflexivity|split; vm_compute; reflexivity]).
Qed.

(** ** File names *)

Lemma string_app_cons c (s1 s2 : string) : String c s1 +:+ s2 = String c (s1 +:+ s2).
Proof. reflexivity. Qed.

Lemma string_app_length (s1 s2 : string) :
  String.length (s1 +:+ s2) = String.length s1 + String.length s2.
Proof.
  induction s1 as [|c s1 IH]; [done|].
  rewrite string_app_cons. simpl. by rewrite IH.
Qed.

Lemma string_app_assoc (s1 s2 s3 : string) : (s1 +:+ s2) +:+ s3 = s1 +:+ s2 +:+ s3.
Proof.
  induction s1 as [|c s1 IH]; [done|].
  rewrite !string_app_cons. by rewrite IH.
Qed.

(** The joined path ends with the file name. *)
Lemma ospj_suffix (a b suffix : string) : ∃ p, ospj a (b +:+ suffix) = p +:+ suffix.
Proof.
  unfold ospj. destruct (starts_with_sep _); [by eexists|].
  destruct (_ || _).
  - exists (a +:+ b). by rewrite string_app_assoc.
  - exists (a +:+ "/" +:+ b). by rewrite !string_app_assoc.
Qed.

(** Two strings that end with different file names of the solver differ:
    compare them from the front while the first has characters left. *)
Ltac suffix_differs :=
  let IH := fresh "IH" in
  let Heq := fresh "Heq" in
  intros p q; revert q; induction p as [|c p IH]; intros q Heq;
  [ do 15 (destruct q as [|? q]; [by vm_compute in Heq|]);
    apply (f_equal String.length) in Heq;
    rewrite !string_app_cons in Heq; simpl in Heq; lia
  | destruct q as [|c' q];
    [ apply (f_equal String.length) in Heq;
      rewrite string_app_cons in Heq; simpl in Heq;
      rewrite string_app_length in Heq; simpl in Heq; lia
    | rewrite !string_app_cons in Heq; injection Heq as _ Heq; by eapply IH ] ].

Lemma ema_name_not_nets : ∀ p q : string, p +:+ "_nets_ema.ckpt" ≠ q +:+ "_nets.ckpt".
Proof. suffix_differs. Qed.

Lemma ema_name_not_optims : ∀ p q : string, p +:+ "_nets_ema.ckpt" ≠ q +:+ "_optims.ckpt".
Proof. suffix_differs. Qed.

(** ** Checkpoints and sampling *)

Section SolverFacts.
Context {T : Type} `{PyNum T}.

Lemma ckpt_save_spec (c : CheckpointIO T) (step : Z) (w : World T) :
  ckpt_save c step w =
  (Ok (), {| w_args := w_args w; w_store := w_store w;
             w_fs := <[ckpt_fname c step := state_dict (w_store w) <$> module_dict c]> (w_fs w);
             w_fetched := w_fetched w;
             w_effects := w_effects w ++ [CkptWrite (ckpt_fname c step)] |}).
Proof. reflexivity. Qed.

Lemma load_state_dict_effects (s : Saveable T) (saved : SavedState T) (w w' : World T) r :
  load_state_dict s saved w = (r, w') → w_effects w' = w_effects w.
Proof.
  destruct s, saved; simpl; try (by intros [= <- <-]).
  case_bool_decide; by intros [= <- <-].
Qed.

(** What every turn of a loop preserves, the loop preserves. *)
Lemma for_each_preserves {A B} (f : World T → B) (xs : list A) (body : A → py (World T) ()) :
  (∀ x w w' r, body x w = (r, w') → f w' = f w) →
  ∀ w w' r, for_each xs body w = (r, w') → f w' = f w.
Proof.
  intros Hbody. induction xs as [|x xs IH]; intros w w' r; simpl.
  - by intros [= <- <-].
  - unfold mbind, py_bind. destruct (body x w) as [[[]|e] w1] eqn:Hx.
    + intros Hrest. apply IH in Hrest. apply Hbody in Hx. congruence.
    + intros [= <- <-]. by eapply Hbody.
Qed.

(** Loading reads the file of the step and no other. *)
Lemma ckpt_load_effects (c : CheckpointIO T) (step : Z) (w : World T) :
  ∃ r w', ckpt_load c step w = (r, w') ∧
          w_effects w' = w_effects w ++ [CkptRead (ckpt_fname c step)].
Proof.
  unfold ckpt_load. py_unfold.
  destruct (w_fs w !! ckpt_fname c step) as [file|]; [|by eexists _, _].
  match goal with |- ∃ r w', ?m ?w0 = _ ∧ _ => destruct (m w0) as [r w'] eqn:Hm end.
  exists r, w'. split; [done|].
  eapply (for_each_preserves w_effects) in Hm; [by rewrite Hm|].
  intros [name s] w1 w2 r'; simpl.
  destruct (file !! name); [apply load_state_dict_effects|by intros [= <- <-]].
Qed.

End SolverFacts.

(** C3.  [Solver.sample] binds its local [nets_ema] to [self.nets]: once
    the checkpoint is loaded, both renderers are given the live ensemble,
    whatever the shadow ensemble [self.nets_ema] is. *)
Theorem sample_renders_with_live_nets {T : Type} `{PyNum T} (self : Solver T) (w : World T) :
  sample self w =
  match _load_checkpoint self (resume_epoch (w_args w)) w with
  | (Ok _, w1) =>
      (Ok (), {| w_args := w_args w1; w_store := w_store w1; w_fs := w_fs w1;
                 w_fetched := w_fetched w1;
                 w_effects := w_effects w1 ++
                   [TranslateUsingReference (nets self)
                      (ospj (result_dir (w_args w)) "reference.jpg");
                    VideoRef (nets self)
                      (ospj (result_dir (w_args w)) "video_ref.mp4")] |})
  | (Raise e, w1) => (Raise e, w1)
  end.
Proof.
  unfold sample. py_unfold.
  destruct (_load_checkpoint self (resume_epoch (w_args w)) w) as [[[]|e] w1]; [|done].
  py_unfold. by rewrite <- app_assoc.
Qed.

(** C10.  In train mode [_save_checkpoint] writes two files, one with the
    data of the live networks' parameters and one with the optimizers;
    no [CheckpointIO] of that mode is registered under the EMA name, and
    what is registered is the live ensemble or the optimizers.  In the
    other modes [_load_checkpoint] reads one file, the one with the EMA
    name for the step, and train mode writes that file for no step. *)
Theorem checkpoints_hold_live_state_only {T : Type} `{PyNum T}
    (args args' : Args T) (nets_ nets_ema_ : gmap string Module_) (step : Z) (w : World T) :
  mode args = "train" → mode args' ≠ "train" →
  let self := Solver_init args (nets_, nets_ema_) in
  let self' := Solver_init args' (nets_, nets_ema_) in
  let nets_file := ospj (checkpoint_dir args) (fmt06 step +:+ "_nets.ckpt") in
  let optims_file := ospj (checkpoint_dir args) (fmt06 step +:+ "_optims.ckpt") in
  let ema_file step' := ospj (checkpoint_dir args') (fmt06 step' +:+ "_nets_ema.ckpt") in
  (∃ optims_,
     optims self = Some optims_ ∧
     _save_checkpoint self step w =
     (Ok (), {| w_args := w_args w; w_store := w_store w;
                w_fs := <[optims_file := OptimState <$> optims_]>
                          (<[nets_file := (λ m, NetState ((w_store w !!!.) <$> m)) <$> nets_]>
                             (w_fs w));
                w_fetched := w_fetched w;
                w_effects := w_effects w ++ [CkptWrite nets_file; CkptWrite optims_file] |})) ∧
  Forall (λ c, fname_suffix c ≠ "_nets_ema.ckpt" ∧
               (module_dict c = NetModule <$> nets_ ∨
                ∃ optims_, optims self = Some optims_ ∧ module_dict c = OptimObj <$> optims_))
         (ckptios self) ∧
  (∀ step' w0, ∃ r w',
     _load_checkpoint self' step' w0 = (r, w') ∧
     w_effects w' = w_effects w0 ++ [CkptRead (ema_file step')]) ∧
  (∀ step', ema_file step' ≠ nets_file ∧ ema_file step' ≠ optims_file).
Proof.
  intros Htrain Hother self self' nets_file optims_file ema_file.
  subst self self'. unfold Solver_init.
  rewrite (bool_decide_eq_true_2 _ Htrain), (bool_decide_eq_false_2 _ Hother).
  split; [|split; [|split]].
  - eexists. split; [reflexivity|].
    unfold _save_checkpoint. simpl.
    rewrite (bind_Ok _ _ _ _ _ (ckpt_save_spec _ _ _)).
    rewrite (bind_Ok _ _ _ _ _ (ckpt_save_spec _ _ _)).
    unfold mret, py_ret, ckpt_fname; simpl.
    rewrite <- !map_fmap_compose, <- app_assoc. reflexivity.
  - simpl. constructor; [split; [done|by left]|].
    constructor; [split; [done|right; by eexists]|]. constructor.
  - intros step' w0. unfold _load_checkpoint. simpl.
    destruct (ckpt_load_effects
                {| fname_dir := checkpoint_dir args'; fname_suffix := "_nets_ema.ckpt";
                   module_dict := NetModule <$> nets_ema_ |} step' w0)
      as (r & w' & Hload & Heff).
    unfold mbind, py_bind. rewrite Hload.
    destruct r as [[]|e]; eexists _, _; (split; [reflexivity|exact Heff]).
  - intros step'. subst ema_file nets_file optims_file. simpl.
    destruct (ospj_suffix (checkpoint_dir args') (fmt06 step') "_nets_ema.ckpt") as [p ->].
    destruct (ospj_suffix (checkpoint_dir args) (fmt06 step) "_nets.ckpt") as [q ->].
    destruct (ospj_suffix (checkpoint_dir args) (fmt06 step) "_optims.ckpt") as [q' ->].
    split; [apply ema_name_not_nets|apply ema_name_not_optims].
Qed.

(** ** The training loop *)

Section TrainFacts.
Context {T : Type} `{PyNum T}.
Context (fetcher : nat → Batch T) (iters_per_epoch : nat).
Context (callable : gmap string Module_ → Store T → Nets T).
Context (backward_and_step : list string → T → Store T → Store T).
Context (d_loss_fn : loss_fn T (Tensor T)) (g_loss_fn : loss_fn T (list (Tensor T))).

Lemma run_loss_inv {A} (m : py (list event) A) (w w' : World T) r :
  run_loss m w = (r, w') → w' = w ∧ (m []).1 = r.
Proof. unfold run_loss. by intros [= <- <-]. Qed.

(** A computation on the parameters changes the parameters only. *)
Lemma on_store_inv {A} (m : py (Store T) A) (w w' : World T) r :
  on_store m w = (r, w') → ∃ σ, w' = set_store (λ _, σ) w.
Proof.
  unfold on_store. destruct (m (w_store w)) as [r0 σ]. intros [= <- <-]. by exists σ.
Qed.

Lemma wandb_logs_app (l1 l2 : list (effect T)) :
  wandb_logs (l1 ++ l2) = wandb_logs l1 ++ wandb_logs l2.
Proof. apply omap_app. Qed.

(** What an epoch returns is what its batches have left in [all_losses]. *)
Lemma train_epoch_returns (self : Solver T) (initial_lambda_ds : T)
    (all_losses all_losses' : option (Munch T)) (epoch : Z) (w w' : World T) :
  train_epoch fetcher iters_per_epoch callable backward_and_step d_loss_fn g_loss_fn
    self initial_lambda_ds all_losses epoch w = (Ok all_losses', w') →
  ∃ w1, batch_loop fetcher callable backward_and_step d_loss_fn g_loss_fn
          self initial_lambda_ds iters_per_epoch all_losses w = (Ok all_losses', w1).
Proof.
  unfold train_epoch. intros He.
  apply bind_Ok_inv in He as (al & w1 & Hloop & He).
  apply bind_Ok_inv in He as (w0 & w2 & _ & He).
  apply bind_Ok_inv in He as (log_now & w3 & _ & He).
  apply bind_Ok_inv in He as ([] & w4 & _ & He).
  apply bind_Ok_inv in He as (save_now & w5 & _ & He).
  apply bind_Ok_inv in He as ([] & w6 & _ & He).
  apply bind_Ok_inv in He as (eval_now & w7 & _ & He).
  apply bind_Ok_inv in He as ([] & w8 & _ & [= <- _]).
  by exists w1.
Qed.

End TrainFacts.

(** ** The training loop with the loss functions of the module *)

Section SolverTrain.
Context {T : Type} `{PyNum T}.
Context (bce : list T → list T → T).
Context (fetcher : nat → Batch T).
Context (callable : gmap string Module_ → Store T → Nets T).
Context (backward_and_step : list string → T → Store T → Store T).

Global Instance untouched_preorder : PreOrder (untouched (T:=T)).
Proof.
  split; [by intros w|]. intros w1 w2 w3 [? ?] [? ?]. split; congruence.
Qed.

Lemma untouched_quiet (w w' : World T) :
  w_args w' = w_args w → w_effects w' = w_effects w → untouched w w'.
Proof. intros Hargs Heff. split; [done|]. by rewrite Heff. Qed.

Local Abbreviation ut_ret := (@relates_ret _ (untouched (T:=T)) untouched_preorder).
Local Abbreviation ut_raise := (@relates_raise _ (untouched (T:=T)) untouched_preorder).
Local Abbreviation ut_get := (@relates_get _ (untouched (T:=T)) untouched_preorder).
Local Abbreviation ut_modify := (@relates_modify _ (untouched (T:=T))).
Local Abbreviation ut_bind := (@relates_bind _ (untouched (T:=T)) untouched_preorder).
Local Abbreviation ut_bind_with :=
  (@relates_bind_with _ (untouched (T:=T)) untouched_preorder).
Local Abbreviation ut_when := (@relates_when _ (untouched (T:=T)) untouched_preorder).
Local Abbreviation ut_for_each :=
  (@relates_for_each _ (untouched (T:=T)) untouched_preorder).

(** No batch completes: after the discriminator step (or at the heat
    map, when it is asked for and there is no [fan]) the batch raises,
    with one item fetched and only the parameters changed. *)
Lemma Solver_train_batch_raises (self : Solver T) (initial_lambda_ds : T) (w : World T) :
  ∃ e σ, (e = TypeError ∨ e = AttributeError) ∧
    train_batch fetcher callable backward_and_step (compute_d_loss bce)
      (compute_g_loss bce) self initial_lambda_ds w
    = (Raise e, {| w_args := w_args w; w_store := σ; w_fs := w_fs w;
                   w_fetched := S (w_fetched w); w_effects := w_effects w |}).
Proof.
  unfold train_batch. py_unfold. unfold heatmap_if_enabled.
  destruct (num_ltb num_zero (w_hpf (w_args w)));
    [destruct (fan (callable (nets self) (w_store w)))|];
    py_unfold; eexists _, _; (split; [|reflexivity]); auto.
Qed.

Lemma Solver_batch_loop (self : Solver T) (initial_lambda_ds : T) (n : nat)
    (w w' : World T) r :
  batch_loop fetcher callable backward_and_step (compute_d_loss bce) (compute_g_loss bce)
    self initial_lambda_ds n None w = (r, w') →
  untouched w w' ∧
  match n with
  | O => r = Ok None
  | S _ => r = Raise TypeError ∨ r = Raise AttributeError
  end.
Proof.
  destruct n as [|n]; cbn [batch_loop].
  - intros [= <- <-]. done.
  - destruct (Solver_train_batch_raises self initial_lambda_ds w) as (e & σ & He & Hb).
    rewrite (bind_Raise _ _ _ _ _ Hb). intros [= <- <-].
    split; [by apply untouched_quiet|]. destruct He as [-> | ->]; auto.
Qed.

Lemma untouched_emit (e : effect T) :
  (∀ losses step, e ≠ WandbLog losses step) → relates untouched (emit e).
Proof.
  intros He. apply ut_modify. intros w. split; [done|]. simpl.
  rewrite wandb_logs_app. destruct e; simpl; try by rewrite app_nil_r.
  by destruct (He losses step).
Qed.

Lemma Solver_train_epoch (self : Solver T) (initial_lambda_ds : T) (n : nat) (epoch : Z) :
  relates untouched
    (train_epoch fetcher n callable backward_and_step (compute_d_loss bce)
       (compute_g_loss bce) self initial_lambda_ds None epoch).
Proof.
  assert (∀ every, relates untouched (is_multiple (T:=T) epoch every)) as Hmult.
  { intros every. unfold is_multiple. case_bool_decide; [apply ut_raise|apply ut_ret]. }
  unfold train_epoch. apply (ut_bind_with (λ al, al = None)).
  - intros w r w' Hloop. by apply Solver_batch_loop in Hloop as [? _].
  - intros w al w' Hloop. apply Solver_batch_loop in Hloop as [_ Hr].
    destruct n; [congruence|]. by destruct Hr.
  - intros al ->.
    apply ut_bind; [apply ut_get|]. intros w.
    apply ut_bind; [apply Hmult|]. intros log_now.
    apply ut_bind; [apply ut_when, ut_raise|]. intros _.
    apply ut_bind; [apply Hmult|]. intros save_now.
    apply ut_bind; [|intros _].
    { apply ut_when, ut_for_each. intros c.
      apply ut_bind; [apply ut_get|]. intros w0.
      apply ut_bind; [|intros _; by apply untouched_emit].
      apply ut_modify. intros w1. by apply untouched_quiet. }
    apply ut_bind; [apply Hmult|]. intros eval_now.
    apply ut_bind; [|intros _; apply ut_ret].
    apply ut_when. apply ut_bind; [by apply untouched_emit|]. intros _.
    by apply untouched_emit.
Qed.

Lemma Solver_epoch_loop (self : Solver T) (initial_lambda_ds : T) (n : nat)
    (epochs : list Z) :
  relates untouched
    (epoch_loop fetcher n callable backward_and_step (compute_d_loss bce)
       (compute_g_loss bce) self initial_lambda_ds epochs None).
Proof.
  induction epochs as [|epoch epochs IH]; cbn [epoch_loop]; [apply ut_ret|].
  apply (ut_bind_with (λ al, al = None)).
  - apply Solver_train_epoch.
  - intros w al w' [w1 Hloop]%train_epoch_returns.
    apply Solver_batch_loop in Hloop as [_ Hr]. destruct n; [congruence|]. by destruct Hr.
  - by intros al ->.
Qed.

(** However [Solver.train] ends, it has left [args] as it was and has
    given nothing to [wandb.log]. *)
Lemma Solver_train_untouched (self : Solver T) (n : nat) :
  relates untouched (Solver_train bce fetcher n callable backward_and_step self).
Proof.
  unfold Solver_train, train. apply ut_bind; [apply ut_get|]. intros w.
  destruct (optims self); [|apply ut_raise].
  apply ut_bind; [apply Solver_epoch_loop|]. intros _. apply ut_ret.
Qed.

(** A run of a train-mode solver that has an epoch to do and a batch in
    it ends in its first batch, by raising. *)
Lemma Solver_train_first_batch (self : Solver T) (optims_ : gmap string (Optimizer T))
    (w : World T) (n : nat) (epoch : Z) (epochs : list Z) :
  optims self = Some optims_ →
  epoch_range (w_args w) = epoch :: epochs →
  let run := Solver_train bce fetcher (S n) callable backward_and_step self w in
  run.1 = Raise TypeError ∨ run.1 = Raise AttributeError.
Proof.
  intros Hoptims Hrange run. subst run.
  destruct (batch_loop fetcher callable backward_and_step (compute_d_loss bce)
              (compute_g_loss bce) self (lambda_ds (w_args w)) (S n) None w)
    as [r w'] eqn:Hloop.
  pose proof (Solver_batch_loop _ _ _ _ _ _ Hloop) as [_ Hr].
  assert (∀ e, r = Raise e →
               Solver_train bce fetcher (S n) callable backward_and_step self w
               = (Raise e, w')) as Hrun.
  { intros e ->. unfold Solver_train, train. unfold mbind at 1, py_bind at 1, get.
    rewrite Hoptims, Hrange. cbn [epoch_loop]. unfold train_epoch.
    unfold mbind at 1 2 3, py_bind at 1 2 3. by rewrite Hloop. }
  destruct Hr as [Hr | Hr]; rewrite (Hrun _ Hr); auto.
Qed.

End SolverTrain.

(** C4.  [Solver.train] never decays the weight.  The decrement of
    [lambda_ds] stands at the end of the batch, behind the generator
    phase, and the generator phase raises in every batch (C1): however a
    run ends, [args], and with it [lambda_ds], is what it was; and a run
    that has an epoch to do and a batch in it ends by raising
    [TypeError] (or [AttributeError], when the heat map is asked for and
    there is no [fan]), where the claim has the weight decreased once
    for the epoch. *)
Theorem Solver_train_never_decays_lambda_ds {T : Type} `{PyNum T}
    (bce : list T → list T → T) (fetcher : nat → Batch T) (iters_per_epoch : nat)
    (callable : gmap string Module_ → Store T → Nets T)
    (backward_and_step : list string → T → Store T → Store T)
    (self : Solver T) (w : World T) :
  let run := Solver_train bce fetcher iters_per_epoch callable backward_and_step self w in
  w_args run.2 = w_args w ∧
  lambda_ds (w_args run.2) = lambda_ds (w_args w) ∧
  ∀ optims_ epoch epochs batches,
    optims self = Some optims_ →
    epoch_range (w_args w) = epoch :: epochs →
    iters_per_epoch = S batches →
    run.1 = Raise TypeError ∨ run.1 = Raise AttributeError.
Proof.
  intros run.
  assert (w_args run.2 = w_args w) as Hargs.
  { subst run.
    destruct (Solver_train bce fetcher iters_per_epoch callable backward_and_step self w)
      as [r w'] eqn:Hrun.
    by apply Solver_train_untouched in Hrun as [? _]. }
  split; [exact Hargs|]. split; [by rewrite Hargs|].
  intros optims_ epoch epochs batches Hoptims Hrange ->.
  by eapply Solver_train_first_batch.
Qed.


(** C9.  [Solver.train] gives nothing to the tracker.  However a run
    ends, no call of [wandb.log] has been added to its effects; and a
    run whose first epoch is a multiple of [wandb_log] ends by raising:
    in its first batch when it has one (C1), and at [wandb.log] itself,
    with [all_losses] unbound, when the loader is empty. *)
Theorem Solver_train_logs_no_losses {T : Type} `{PyNum T}
    (bce : list T → list T → T) (fetcher : nat → Batch T) (iters_per_epoch : nat)
    (callable : gmap string Module_ → Store T → Nets T)
    (backward_and_step : list string → T → Store T → Store T)
    (self : Solver T) (w : World T) :
  let run := Solver_train bce fetcher iters_per_epoch callable backward_and_step self w in
  wandb_logs (w_effects run.2) = wandb_logs (w_effects w) ∧
  ∀ optims_ epoch epochs,
    optims self = Some optims_ →
    epoch_range (w_args w) = epoch :: epochs →
    (epoch `mod` wandb_log (w_args w))%Z = 0%Z →
    ∃ e, run.1 = Raise e ∧
         match iters_per_epoch with
         | O => e = UnboundLocalError ∨ e = ZeroDivisionError
         | S _ => e = TypeError ∨ e = AttributeError
         end.
Proof.
  intros run. split.
  - subst run.
    destruct (Solver_train bce fetcher iters_per_epoch callable backward_and_step self w)
      as [r w'] eqn:Hrun.
    by apply Solver_train_untouched in Hrun as [_ ?].
  - intros optims_ epoch epochs Hoptims Hrange Hmod. subst run.
    destruct iters_per_epoch as [|batches].
    + unfold Solver_train, train. unfold mbind at 1, py_bind at 1, get.
      rewrite Hoptims, Hrange. cbn [epoch_loop]. unfold train_epoch, is_multiple.
      cbn [batch_loop]. py_unfold.
      case_bool_decide; py_unfold; [by eexists; split; [done|right]|].
      rewrite (bool_decide_eq_true_2 _ Hmod). by eexists; split; [done|left].
    + destruct (Solver_train_first_batch bce fetcher callable backward_and_step self
                  optims_ w batches epoch epochs Hoptims Hrange) as [Hr | Hr];
        eexists; (split; [exact Hr|]); auto.
Qed.


(** C4 on the small instance in binary64: one epoch of two batches,
    weight 1 and [ds_epoch] 4; the claim has the weight at 3/4 after the
    epoch. *)
Lemma Solver_train_never_decays_lambda_ds_witness :
  let args := Toy.args (T:=float) "train" 1 4 in
  let run := Solver_train Toy.bce (Toy.fetcher 5) 2 Toy.callable Toy.backward_and_step
               (Solver_init args Toy.ensembles) (Toy.world args) in
  lambda_ds (w_args run.2) = 1%float ∧
  (run.1 = Raise TypeError ∨ run.1 = Raise AttributeError).
Proof.
  intros args run. subst run.
  destruct (Solver_train_never_decays_lambda_ds Toy.bce (Toy.fetcher 5) 2
              Toy.callable Toy.backward_and_step (Solver_init args Toy.ensembles)
              (Toy.world args)) as (_ & Hweight & Hraises).
  split; [rewrite Hweight; vm_compute; reflexivity|].
  eapply Hraises; [reflexivity|vm_compute; reflexivity|reflexivity].
Defined.

(** C9 on the same run: epoch 0 is a multiple of [wandb_log = 1], and
    the tracker has been given nothing. *)
Lemma Solver_train_logs_no_losses_witness :
  let args := Toy.args (T:=float) "train" 1 4 in
  let run := Solver_train Toy.bce (Toy.fetcher 5) 2 Toy.callable Toy.backward_and_step
               (Solver_init args Toy.ensembles) (Toy.world args) in
  wandb_logs (w_effects run.2) = [] ∧
  ∃ e, run.1 = Raise e ∧ (e = TypeError ∨ e = AttributeError).
Proof.
  intros args run. subst run.
  destruct (Solver_train_logs_no_losses Toy.bce (Toy.fetcher 5) 2
              Toy.callable Toy.backward_and_step (Solver_init args Toy.ensembles)
              (Toy.world args)) as (Hlogs & Hraises).
  split; [rewrite Hlogs; reflexivity|].
  eapply Hraises; [reflexivity|vm_compute; reflexivity|reflexivity].
Defined.

(** The run that C4 and C9 speak of, on the small instance in binary64:
    one epoch of two batches, weight 1, [ds_epoch] 4, every period 1.  It
    raises [TypeError] in its first batch; the weight is still 1, and
    nothing has been logged, saved or evaluated. *)
Lemma Solver_train_on_small_instance :
  let args := Toy.args (T:=float) "train" 1 4 in
  let run := Solver_train Toy.bce (Toy.fetcher 5) 2 Toy.callable Toy.backward_and_step
               (Solver_init args Toy.ensembles) (Toy.world args) in
  run.1 = Raise TypeError ∧ lambda_ds (w_args run.2) = 1%float ∧
  w_fetched run.2 = 1%nat ∧ w_effects run.2 = [].
Proof. cbv zeta. repeat split; vm_compute; reflexivity. Qed.

(** ** Checkpoints and sampling on the small instance *)

(** C10 on the small instance, at step 7. *)
Lemma checkpoints_hold_live_state_only_witness :
  let self := Solver_init (T:=Q) (Toy.args "train" 1 4) Toy.ensembles in
  let self' := Solver_init (T:=Q) (Toy.args "sample" 1 4) Toy.ensembles in
  (∃ w', _save_checkpoint self 7 (Toy.world (Toy.args "train" 1 4)) = (Ok (), w') ∧
         w_effects w' = [CkptWrite "expr/checkpoints/000007_nets.ckpt";
                         CkptWrite "expr/checkpoints/000007_optims.ckpt"]) ∧
  (∃ r w', _load_checkpoint self' 7 (Toy.world (Toy.args "sample" 1 4)) = (r, w') ∧
           w_effects w' = [CkptRead "expr/checkpoints/000007_nets_ema.ckpt"]).
Proof.
  intros self self'.
  destruct (checkpoints_hold_live_state_only (Toy.args (T:=Q) "train" 1 4)
              (Toy.args "sample" 1 4) Toy.ensembles.1 Toy.ensembles.2 7
              (Toy.world (Toy.args "train" 1 4)) eq_refl ltac:(discriminate))
    as ((optims_ & _ & Hsave) & _ & Hload & _).
  split.
  - eexists. split; [exact Hsave|]. vm_compute. reflexivity.
  - destruct (Hload 7%Z (Toy.world (Toy.args "sample" 1 4))) as (r & w' & Hl & Heff).
    exists r, w'. split; [exact Hl|]. rewrite Heff. vm_compute. reflexivity.
Defined.

(** [sample] on the small instance, after the shadows were saved: the
    file read is the one of the shadow ensemble, and both renderers are
    given the live ensemble, which is another one. *)
Lemma sample_on_small_instance :
  let args := Toy.args (T:=Q) "sample" 1 4 in
  let self := Solver_init args Toy.ensembles in
  let saved := (_save_checkpoint self 0 (Toy.world args)).2 in
  (sample self saved).1 = Ok () ∧
  w_effects (sample self saved).2 =
    [CkptWrite "expr/checkpoints/000000_nets_ema.ckpt";
     CkptRead "expr/checkpoints/000000_nets_ema.ckpt";
     TranslateUsingReference Toy.ensembles.1 "expr/results/reference.jpg";
     VideoRef Toy.ensembles.1 "expr/results/video_ref.mp4"] ∧
  nets self = Toy.ensembles.1 ∧ nets_ema self = Toy.ensembles.2 ∧
  Toy.ensembles.1 !! "generator" ≠ Toy.ensembles.2 !! "generator".
Proof.
  cbv zeta. split; [by vm_compute|]. split; [by vm_compute|].
  split; [done|]. split; [done|]. by vm_compute.
Qed.

(** ** The generator phase inside the loop *)

Section GeneratorPhase.
Context {T : Type} `{PyNum T}.
Context (bce : list T → list T → T).
Context (fetcher : nat → Batch T) (callable : gmap string Module_ → Store T → Nets T).
Context (backward_and_step : list string → T → Store T → Store T).

(** With the two loss functions of the module, the first batch of
    [Solver.train] raises [TypeError] in its generator phase. *)
Lemma Solver_train_raises (self : Solver T) (optims_ : gmap string (Optimizer T))
    (w : World T) (n : nat) (epoch : Z) (epochs : list Z) :
  optims self = Some optims_ →
  epoch_range (w_args w) = epoch :: epochs →
  num_ltb num_zero (w_hpf (w_args w)) = false →
  (Solver_train bce fetcher (S n) callable backward_and_step self w).1 = Raise TypeError.
Proof.
  intros Hoptims Hrange Hhpf.
  unfold Solver_train, train. py_unfold. rewrite Hoptims, Hrange.
  cbn [epoch_loop]. unfold train_epoch. cbn [batch_loop]. unfold train_batch.
  py_unfold. unfold heatmap_if_enabled. rewrite Hhpf. reflexivity.
Qed.

End GeneratorPhase.

(** * Further properties of the solver *)

(** ** The losses *)

(** The discriminator loss, whenever it is returned, in any arithmetic:
    the breakdown has the three names [real], [fake] and [reg]; [real]
    is the cross entropy of the discriminator's verdict on the real image
    against the target 1, [fake] that of its verdict on the image
    generated under [no_grad] against the target 0, and [reg] the
    constant 0; the total is [real + fake + lambda_reg * 0], with the
    operations in the order of the source: the penalty enters as
    [lambda_reg] times the constant 0, not as a penalty computed from the
    gradient. *)
Theorem compute_d_loss_total {T : Type} `{PyNum T} (bce : list T → list T → T)
    (nets_ : Nets T) (args : Args T) (x_real : Tensor T) (y_org y_trg : Labels)
    (z_trg x_ref : option (Tensor T)) (masks : option (Masks T))
    (tr tr' : list event) (loss : T) (losses : Munch T) :
  compute_d_loss bce nets_ args x_real y_org y_trg z_trg x_ref masks tr
    = (Ok (loss, losses), tr') →
  ∃ s_trg : Tensor T,
    match z_trg, x_ref with
    | Some z, None => s_trg = detach (mapping_network nets_ z y_trg)
    | None, Some x => s_trg = detach (style_encoder nets_ x y_trg)
    | _, _ => False
    end ∧
    let out_real := discriminator nets_ (requires_grad_ x_real) y_org in
    let x_fake := detach (generator nets_ (requires_grad_ x_real) s_trg masks) in
    let out_fake := discriminator nets_ x_fake y_trg in
    let real := bce (data out_real) (replicate (length (data out_real)) (num_of_Z 1)) in
    let fake := bce (data out_fake) (replicate (length (data out_fake)) (num_of_Z 0)) in
    losses = {[ "real" := real; "fake" := fake; "reg" := num_zero ]} ∧
    dom losses = {[ "real"; "fake"; "reg" ]} ∧
    loss = num_add (num_add real fake) (num_mul (lambda_reg args) num_zero).
Proof.
  intros Hret.
  destruct z_trg as [z|], x_ref as [x|]; try discriminate Hret;
    revert Hret; unfold compute_d_loss; py_unfold; unfold adv_loss; py_unfold;
    intros [= <- <- _]; eexists; (split; [reflexivity|]); cbv zeta;
    (split; [reflexivity|]); (split; [|reflexivity]);
    rewrite !dom_insert_L, dom_singleton_L; set_solver.
Qed.

(** The discriminator loss on the small instance in binary64, with a
    latent vector: the terms are 4 and 6, and the total is 10. *)
Lemma compute_d_loss_total_witness :
  ∃ (loss : float) (losses : Munch float),
    (compute_d_loss Toy.bce Toy.nets (Toy.args "train" 1 4) (Toy.image 5)
       [0%Z] [1%Z] (Some (Toy.image 1)) None None []).1 = Ok (loss, losses) ∧
    losses !! "real" = Some 4%float ∧ losses !! "fake" = Some 6%float ∧
    losses !! "reg" = Some 0%float ∧ loss = 10%float.
Proof.
  destruct (compute_d_loss Toy.bce Toy.nets (Toy.args "train" 1 4) (Toy.image 5)
              [0%Z] [1%Z] (Some (Toy.image 1)) None None [])
    as [[[loss losses]|e] tr'] eqn:Hrun; [|vm_compute in Hrun; discriminate Hrun].
  destruct (compute_d_loss_total _ _ _ _ _ _ _ _ _ _ _ _ _ Hrun)
    as (s_trg & -> & Hlosses & _ & Hloss).
  exists loss, losses. split; [reflexivity|].
  rewrite Hlosses, Hloss. repeat split; vm_compute; reflexivity.
Defined.

Section MoreLossFacts.
Context {T : Type} `{PyNum T}.
Context (bce : list T → list T → T).

(** How a call of [compute_g_loss] ends.  A missing list of latent
    vectors or of reference images is a [TypeError] and a list that is
    not of length two a [ValueError], both raised before any forward
    pass; with two of each the function returns after its ten forward
    passes and one cross entropy (eleven with the heat map), unless
    [w_hpf > 0] and the ensemble has no [fan], which is an
    [AttributeError] at the heat map of the cycle term. *)
Theorem compute_g_loss_outcomes (nets_ : Nets T) (args : Args T)
    (x_real : Tensor T) (y_org y_trg : Labels) (z_trgs x_refs : option (list (Tensor T)))
    (masks : option (Masks T)) (tr : list event) :
  let outcome := compute_g_loss bce nets_ args x_real y_org y_trg z_trgs x_refs masks tr in
  let first_passes :=
    [Forward "mapping_network"; Forward "generator"; Forward "discriminator"; CrossEntropy;
     Forward "style_encoder"; Forward "style_encoder";
     Forward "mapping_network"; Forward "generator"] in
  match z_trgs, x_refs with
  | None, _ => outcome = (Raise TypeError, tr)
  | Some [_; _], None => outcome = (Raise TypeError, tr)
  | Some [_; _], Some [_; _] =>
      if num_ltb num_zero (w_hpf args) then
        match fan nets_ with
        | Some _ =>
            ∃ loss losses,
              outcome = (Ok (loss, losses),
                         tr ++ first_passes ++
                           [Forward "fan"; Forward "style_encoder"; Forward "generator"])
        | None => outcome = (Raise AttributeError, tr ++ first_passes)
        end
      else
        ∃ loss losses,
          outcome = (Ok (loss, losses),
                     tr ++ first_passes ++ [Forward "style_encoder"; Forward "generator"])
  | Some _, _ => outcome = (Raise ValueError, tr)
  end.
Proof.
  intros outcome first_passes. subst outcome first_passes.
  destruct z_trgs as [[|z1 [|z2 [|z3 zs]]]|]; try reflexivity.
  destruct x_refs as [[|x1 [|x2 [|x3 xs]]]|]; try reflexivity.
  unfold compute_g_loss, compute_g_loss_body, heatmap_if_enabled.
  py_unfold. unfold adv_loss. py_unfold.
  destruct (num_ltb num_zero (w_hpf args)); [destruct (fan nets_)|]; py_unfold;
    rewrite <- ?app_assoc; simpl; try reflexivity; by eexists _, _.
Qed.

(** The second reference image is unpacked and never used: two calls
    that differ only in it end alike. *)
Theorem compute_g_loss_ignores_second_reference (nets_ : Nets T) (args : Args T)
    (x_real : Tensor T) (y_org y_trg : Labels) (z_trgs : option (list (Tensor T)))
    (x_ref x_ref2 x_ref2' : Tensor T) (masks : option (Masks T)) (tr : list event) :
  compute_g_loss bce nets_ args x_real y_org y_trg z_trgs (Some [x_ref; x_ref2]) masks tr
  = compute_g_loss bce nets_ args x_real y_org y_trg z_trgs (Some [x_ref; x_ref2']) masks tr.
Proof. by destruct z_trgs as [[|z1 [|z2 [|z3 zs]]]|]. Qed.


End MoreLossFacts.



(** ** The moving average *)

Section MoreMovingAverageFacts.
Context {T : Type} `{PyNum T}.

(** [moving_average] creates and deletes no parameter: the store has the
    same parameter objects before and after, whatever the two modules
    are and however the call ends. *)
Theorem moving_average_keeps_the_parameters (model model_test : Module_) (beta : T)
    (σ : Store T) :
  dom (moving_average model model_test beta σ).2 = dom σ.
Proof.
  unfold moving_average. generalize (zip model model_test). intros pairs. revert σ.
  induction pairs as [|pq pairs IH]; intros σ; simpl; [done|].
  unfold mbind, py_bind. destruct (ema_assign beta pq σ) as [[[]|e] σ1] eqn:Hpq.
  - rewrite IH. by eapply ema_assign_dom.
  - simpl. by eapply ema_assign_dom.
Qed.

(** Only the shadow parameters that [zip] pairs with a live one are
    written: a parameter that is at none of the first [len(model)]
    places of the shadow list keeps its data, be it a live parameter, a
    parameter of another module, or a shadow parameter past the end of
    the shorter live list; and that however the call ends. *)
Theorem moving_average_writes_paired_shadows_only (model model_test : Module_) (beta : T)
    (σ : Store T) (r : positive) :
  (∀ i, (i < length model)%nat → model_test !! i ≠ Some r) →
  (moving_average model model_test beta σ).2 !! r = σ !! r.
Proof.
  unfold moving_average. revert model_test σ.
  induction model as [|p ps IH]; intros [|q qs] σ Hr; simpl; try done.
  assert (r ≠ q) as Hne by (intros ->; by apply (Hr 0%nat); [simpl; lia|]).
  unfold mbind, py_bind. destruct (ema_assign beta (p, q) σ) as [[[]|e] σ1] eqn:Hpq.
  - rewrite IH; [by eapply ema_assign_frame|].
    intros i Hi. apply (Hr (S i)). simpl. lia.
  - simpl. by eapply ema_assign_frame.
Qed.

End MoreMovingAverageFacts.

(** A live module with one parameter and a shadow with two: the second
    shadow parameter, which [zip] leaves out, keeps its data. *)
Lemma moving_average_writes_paired_shadows_only_witness :
  let σ : Store Q := {[ 1%positive := [1%Q]; 2%positive := [0%Q]; 4%positive := [7%Q] ]} in
  (moving_average [1%positive] [2%positive; 4%positive] (999 # 1000) σ).2 !! 4%positive
  = Some [7%Q].
Proof.
  intros σ.
  rewrite (moving_average_writes_paired_shadows_only [1%positive] [2%positive; 4%positive]
             (999 # 1000) σ 4%positive); [reflexivity|].
  intros i Hi. destruct i as [|i]; [discriminate|]. simpl in Hi. lia.
Defined.

(** ** Evaluation, optimizers and the dictionary of losses *)

Section MoreSolverFacts.
Context {T : Type} `{PyNum T}.

(** [Solver.evaluate] of a solver built in a mode other than [train]:
    the checkpoint it loads is registered with the shadow ensemble
    [nets_ema], and the metrics are then calculated on the live ensemble
    [nets], twice, in mode [latent] and then in mode [reference], both at
    the step [args.resume_epoch]; if loading raises, no metric is
    calculated. *)
Theorem evaluate_calculates_metrics_on_live_nets (args : Args T)
    (nets_ nets_ema_ : gmap string Module_) (w : World T) :
  mode args ≠ "train" →
  let self := Solver_init args (nets_, nets_ema_) in
  Forall (λ c, module_dict c = NetModule <$> nets_ema_) (ckptios self) ∧
  evaluate self w =
  match _load_checkpoint self (resume_epoch (w_args w)) w with
  | (Ok _, w1) =>
      (Ok (), {| w_args := w_args w1; w_store := w_store w1; w_fs := w_fs w1;
                 w_fetched := w_fetched w1;
                 w_effects := w_effects w1 ++
                   [CalculateMetrics nets_ (resume_epoch (w_args w)) "latent";
                    CalculateMetrics nets_ (resume_epoch (w_args w)) "reference"] |})
  | (Raise e, w1) => (Raise e, w1)
  end.
Proof.
  intros Hmode self.
  assert (nets self = nets_ ∧
          ckptios self = [ {| fname_dir := checkpoint_dir args;
                              fname_suffix := "_nets_ema.ckpt";
                              module_dict := NetModule <$> nets_ema_ |} ]) as [Hnets Hckpt].
  { subst self. unfold Solver_init. by rewrite (bool_decide_eq_false_2 _ Hmode). }
  split; [rewrite Hckpt; by repeat constructor|].
  unfold evaluate. py_unfold. rewrite Hnets.
  destruct (_load_checkpoint self (resume_epoch (w_args w)) w) as [[[]|e] w1]; [|done].
  py_unfold. by rewrite <- app_assoc.
Qed.

(** The optimizers that [Solver.__init__] creates: none outside train
    mode; in train mode one for every network of the ensemble except the
    one named [fan], over that network's own parameters, with the
    learning rate [f_lr] for [mapping_network] and [lr] for the others,
    and the same betas and weight decay for all. *)
Theorem Solver_init_optimizers (args : Args T) (nets_ nets_ema_ : gmap string Module_) :
  match optims (Solver_init args (nets_, nets_ema_)) with
  | None => mode args ≠ "train"
  | Some optims_ =>
      mode args = "train" ∧
      ∀ net,
        optims_ !! net =
        if bool_decide (net = "fan") then None
        else (λ m, {| opt_params := m;
                      opt_lr := if bool_decide (net = "mapping_network")
                                then f_lr args else lr args;
                      opt_betas := (beta1 args, beta2 args);
                      opt_weight_decay := weight_decay args |}) <$> nets_ !! net
  end.
Proof.
  unfold Solver_init. case_bool_decide as Hmode; simpl; [|done].
  split; [done|]. intros net. rewrite map_lookup_imap.
  destruct (nets_ !! net) as [m|]; simpl; by case_bool_decide.
Qed.

Lemma add_prefixed_lookup (prefix : string) (loss all_losses : Munch T) (key : string) :
  add_prefixed prefix loss all_losses !! (prefix +:+ key)
  = match loss !! key with
    | Some value => Some value
    | None => all_losses !! (prefix +:+ key)
    end.
Proof.
  unfold add_prefixed.
  apply (map_fold_weak_ind (λ r (m : Munch T),
           r !! (prefix +:+ key)
           = match m !! key with
             | Some value => Some value
             | None => all_losses !! (prefix +:+ key)
             end)).
  - by rewrite lookup_empty.
  - intros i x m r Hi IH. destruct (decide (i = key)) as [->|Hne].
    + by rewrite !lookup_insert_eq.
    + rewrite !lookup_insert_ne; [done|done|].
      intros Heq. by apply (inj (String.app prefix)) in Heq.
Qed.

Lemma add_prefixed_lookup_other (prefix : string) (loss all_losses : Munch T) (key : string) :
  (∀ k, key ≠ prefix +:+ k) →
  add_prefixed prefix loss all_losses !! key = all_losses !! key.
Proof.
  intros Hkey. unfold add_prefixed.
  apply (map_fold_weak_ind (λ r (m : Munch T), r !! key = all_losses !! key)); [done|].
  intros i x m r Hi IH. rewrite lookup_insert_ne; [done|]. intros Heq. by eapply Hkey.
Qed.

(** The dictionary [all_losses] of a batch loses nothing: every entry of
    the discriminator breakdown is found under ["D/latent_"] plus its
    name, every entry of the generator breakdown under ["G/latent_"] plus
    its name, the weight under ["G/lambda_ds"], and there is nothing
    under any other key. *)
Theorem collect_losses_lookup (d_losses_latent g_losses_latent : Munch T) (lambda_ds_now : T) :
  let all_losses := collect_losses d_losses_latent g_losses_latent lambda_ds_now in
  all_losses !! "G/lambda_ds" = Some lambda_ds_now ∧
  (∀ key, all_losses !! ("D/latent_" +:+ key) = d_losses_latent !! key) ∧
  (∀ key, all_losses !! ("G/latent_" +:+ key) = g_losses_latent !! key) ∧
  (∀ key', key' ≠ "G/lambda_ds" →
           (∀ key, key' ≠ "D/latent_" +:+ key) → (∀ key, key' ≠ "G/latent_" +:+ key) →
           all_losses !! key' = None).
Proof.
  unfold collect_losses. cbv zeta. split; [apply lookup_insert_eq|].
  split; [|split].
  - intros key. rewrite lookup_insert_ne by done.
    rewrite add_prefixed_lookup_other by done.
    rewrite add_prefixed_lookup, lookup_empty. by destruct (d_losses_latent !! key).
  - intros key. rewrite lookup_insert_ne by done.
    rewrite add_prefixed_lookup.
    destruct (g_losses_latent !! key); [done|].
    by rewrite add_prefixed_lookup_other.
  - intros key' Hlambda Hd Hg. rewrite lookup_insert_ne by done.
    by rewrite !add_prefixed_lookup_other.
Qed.

End MoreSolverFacts.

(** ** More on the training loop *)

Section MoreTrainFacts.
Context {T : Type} `{PyNum T}.
Context (fetcher : nat → Batch T) (iters_per_epoch : nat).
Context (callable : gmap string Module_ → Store T → Nets T).
Context (backward_and_step : list string → T → Store T → Store T).
Context (d_loss_fn : loss_fn T (Tensor T)) (g_loss_fn : loss_fn T (list (Tensor T))).

Global Instance training_progress_preorder : PreOrder (training_progress (T:=T)).
Proof.
  split.
  - intros w. split; [done|]. exists []. by rewrite app_nil_r.
  - intros w1 w2 w3 [Hcfg1 (l1 & Heff1 & Hl1)] [Hcfg2 (l2 & Heff2 & Hl2)].
    split; [congruence|]. exists (l1 ++ l2).
    split; [by rewrite Heff2, Heff1, app_assoc|by apply Forall_app].
Qed.

Lemma training_progress_quiet (w w' : World T) :
  but_lambda_ds (w_args w') = but_lambda_ds (w_args w) →
  w_effects w' = w_effects w →
  training_progress w w'.
Proof. intros Hcfg Heff. split; [done|]. exists []. by rewrite app_nil_r. Qed.

Local Abbreviation tp_ret :=
  (@relates_ret _ (training_progress (T:=T)) training_progress_preorder).
Local Abbreviation tp_raise :=
  (@relates_raise _ (training_progress (T:=T)) training_progress_preorder).
Local Abbreviation tp_get :=
  (@relates_get _ (training_progress (T:=T)) training_progress_preorder).
Local Abbreviation tp_lift_result :=
  (@relates_lift_result _ (training_progress (T:=T)) training_progress_preorder).
Local Abbreviation tp_modify := (@relates_modify _ (training_progress (T:=T))).
Local Abbreviation tp_bind :=
  (@relates_bind _ (training_progress (T:=T)) training_progress_preorder).
Local Abbreviation tp_when :=
  (@relates_when _ (training_progress (T:=T)) training_progress_preorder).
Local Abbreviation tp_for_each :=
  (@relates_for_each _ (training_progress (T:=T)) training_progress_preorder).

Lemma relates_emit (e : effect T) :
  train_effect e → relates training_progress (emit e).
Proof.
  intros He. apply tp_modify. intros w.
  split; [done|]. exists [e]. split; [done|]. by constructor.
Qed.

Lemma relates_run_loss {A} (m : py (list event) A) :
  relates training_progress (run_loss m).
Proof. intros w r w' [-> _]%run_loss_inv. reflexivity. Qed.

Lemma relates_save_checkpoint (self : Solver T) (step : Z) :
  relates training_progress (_save_checkpoint self step).
Proof.
  apply tp_for_each. intros c.
  apply tp_bind; [apply tp_get|]. intros w0.
  apply tp_bind; [ |intros _; by apply relates_emit].
  apply tp_modify. intros w. by apply training_progress_quiet.
Qed.

Lemma relates_train_batch (self : Solver T) (initial_lambda_ds : T) :
  relates training_progress
    (train_batch fetcher callable backward_and_step d_loss_fn g_loss_fn
       self initial_lambda_ds).
Proof.
  pose proof (training_progress_preorder) as Hpre.
  pose proof (λ f, tp_modify (set_store (T:=T) f)
                     (λ w, training_progress_quiet w _ eq_refl eq_refl)) as Hstore.
  unfold train_batch.
  apply tp_bind; [apply tp_get|]. intros w.
  apply tp_bind; [ |intros _].
  { apply tp_modify. intros w0. by apply training_progress_quiet. }
  apply tp_bind; [apply relates_run_loss|]. intros masks.
  apply tp_bind; [apply relates_run_loss|]. intros [d_loss d_losses].
  apply tp_bind; [apply Hstore|]. intros _.
  apply tp_bind; [apply tp_get|]. intros w1.
  apply tp_bind; [apply relates_run_loss|]. intros [g_loss g_losses].
  apply tp_bind; [apply Hstore|]. intros _.
  apply tp_bind; [ |intros _].
  { unfold ema_update. apply tp_bind; [apply tp_get|]. intros w2.
    destruct (ema (w_args w2)); [|apply tp_ret].
    apply tp_for_each. intros name. unfold attr.
    apply tp_bind; [ |intros model].
    { destruct (nets self !! name); [apply tp_ret|apply tp_raise]. }
    apply tp_bind; [ |intros model_test].
    { destruct (nets_ema self !! name); [apply tp_ret|apply tp_raise]. }
    intros w3 r3 w3' [σ ->]%on_store_inv. by apply training_progress_quiet. }
  apply tp_bind; [ |intros _; apply tp_ret].
  unfold decay_lambda_ds. apply tp_bind; [apply tp_get|]. intros w2.
  destruct (num_ltb num_zero (lambda_ds (w_args w2))); [|apply tp_ret].
  apply tp_bind; [apply tp_lift_result|]. intros step.
  apply tp_modify. intros w3. by apply training_progress_quiet.
Qed.

Lemma relates_batch_loop (self : Solver T) (initial_lambda_ds : T) (n : nat)
    (all_losses : option (Munch T)) :
  relates training_progress
    (batch_loop fetcher callable backward_and_step d_loss_fn g_loss_fn
       self initial_lambda_ds n all_losses).
Proof.
  revert all_losses. induction n as [|n IH]; intros all_losses; simpl.
  - apply tp_ret.
  - apply tp_bind; [apply relates_train_batch|]. intros a. apply IH.
Qed.

Lemma relates_train_epoch (self : Solver T) (initial_lambda_ds : T)
    (all_losses : option (Munch T)) (epoch : Z) :
  relates training_progress
    (train_epoch fetcher iters_per_epoch callable backward_and_step d_loss_fn g_loss_fn
       self initial_lambda_ds all_losses epoch).
Proof.
  pose proof (training_progress_preorder) as Hpre.
  assert (∀ every, relates training_progress (is_multiple (T:=T) epoch every)) as Hmult.
  { intros every. unfold is_multiple.
    case_bool_decide; [apply tp_raise|apply tp_ret]. }
  unfold train_epoch.
  apply tp_bind; [apply relates_batch_loop|]. intros al.
  apply tp_bind; [apply tp_get|]. intros w.
  apply tp_bind; [apply Hmult|]. intros log_now.
  apply tp_bind; [ |intros _].
  { apply tp_when.
    destruct al; [by apply relates_emit|apply tp_raise]. }
  apply tp_bind; [apply Hmult|]. intros save_now.
  apply tp_bind; [ |intros _].
  { apply tp_when. apply relates_save_checkpoint. }
  apply tp_bind; [apply Hmult|]. intros eval_now.
  apply tp_bind; [ |intros _; apply tp_ret].
  apply tp_when.
  apply tp_bind; [by apply relates_emit|]. intros _. by apply relates_emit.
Qed.

(** However [Solver.train] ends, by returning or by raising, it has read
    no checkpoint (also when [resume_epoch] is positive) and rendered
    nothing: the effects it has added are calls of [wandb.log], writes
    of checkpoints and calculations of metrics; and of [args] it has
    changed no field but [lambda_ds]. *)
Theorem train_reads_no_checkpoint (self : Solver T) (w : World T) :
  let w' := (train fetcher iters_per_epoch callable backward_and_step
               d_loss_fn g_loss_fn self w).2 in
  but_lambda_ds (w_args w') = but_lambda_ds (w_args w) ∧
  ∃ added, w_effects w' = w_effects w ++ added ∧ Forall train_effect added.
Proof.
  pose proof (training_progress_preorder) as Hpre.
  assert (relates training_progress
            (train fetcher iters_per_epoch callable backward_and_step
               d_loss_fn g_loss_fn self)) as Htrain.
  { unfold train. apply tp_bind; [apply tp_get|]. intros w0.
    destruct (optims self); [|apply tp_raise].
    apply tp_bind; [ |intros _; apply tp_ret].
    generalize (@None (Munch T)). generalize (lambda_ds (w_args w0)).
    induction (epoch_range (w_args w0)) as [|epoch epochs IH]; intros initial al; simpl.
    - apply tp_ret.
    - apply tp_bind; [apply relates_train_epoch|]. intros al'. apply IH. }
  intros w'. subst w'.
  destruct (train _ _ _ _ _ _ self w) as [r w'] eqn:Hrun. by apply Htrain in Hrun.
Qed.

End MoreTrainFacts.

(** ** Epochs *)

Section EpochFacts.
Context {T : Type} `{PyNum T}.
Context (fetcher : nat → Batch T) (iters_per_epoch : nat).
Context (callable : gmap string Module_ → Store T → Nets T).
Context (backward_and_step : list string → T → Store T → Store T).
Context (d_loss_fn : loss_fn T (Tensor T)) (g_loss_fn : loss_fn T (list (Tensor T))).

(** The epochs of a run are the integers from [resume_epoch], or from 0
    when [resume_epoch] is not positive, up to but not including
    [num_epochs], each once and in increasing order. *)
Theorem epoch_range_spec (args : Args T) :
  let start_epoch := Z.max 0 (resume_epoch args) in
  (∀ epoch, epoch ∈ epoch_range args ↔ (start_epoch ≤ epoch < num_epochs args)%Z) ∧
  length (epoch_range args) = Z.to_nat (num_epochs args - start_epoch) ∧
  (∀ i epoch, epoch_range args !! i = Some epoch → epoch = (start_epoch + Z.of_nat i)%Z).
Proof.
  intros start_epoch. unfold epoch_range.
  assert ((if (0 <? resume_epoch args)%Z then resume_epoch args else 0%Z) = start_epoch)
    as -> by (subst start_epoch; destruct (Z.ltb_spec 0 (resume_epoch args)); lia).
  split; [|split].
  - intros epoch. rewrite elem_of_seqZ. lia.
  - apply length_seqZ.
  - intros i epoch Hi. apply lookup_seqZ in Hi. lia.
Qed.

(** A run whose first epoch would be [num_epochs] or later does nothing:
    [Solver.train] of a train-mode solver returns at once and leaves the
    parameters, the weight, the files and the effects as they were. *)
Theorem train_without_epochs (self : Solver T) (optims_ : gmap string (Optimizer T))
    (w : World T) :
  optims self = Some optims_ →
  (num_epochs (w_args w) ≤ Z.max 0 (resume_epoch (w_args w)))%Z →
  train fetcher iters_per_epoch callable backward_and_step d_loss_fn g_loss_fn self w
  = (Ok (), w).
Proof.
  intros Hoptims Hlate. unfold train. py_unfold. rewrite Hoptims.
  assert (epoch_range (w_args w) = []) as ->; [|done].
  unfold epoch_range. apply length_zero_iff_nil. rewrite length_seqZ.
  destruct (Z.ltb_spec 0 (resume_epoch (w_args w))); lia.
Qed.

(** With an empty loader no batch ever binds [all_losses]: when the
    first epoch of the run is a multiple of [wandb_log], as epoch 0
    always is, [Solver.train] raises [UnboundLocalError] at its call of
    [wandb.log], before anything is saved or evaluated. *)
Theorem train_on_empty_loader (self : Solver T) (optims_ : gmap string (Optimizer T))
    (w : World T) (epoch : Z) (epochs : list Z) :
  optims self = Some optims_ →
  epoch_range (w_args w) = epoch :: epochs →
  wandb_log (w_args w) ≠ 0%Z →
  (epoch `mod` wandb_log (w_args w))%Z = 0%Z →
  train fetcher 0 callable backward_and_step d_loss_fn g_loss_fn self w
  = (Raise UnboundLocalError, w).
Proof.
  intros Hoptims Hrange Hlog Hmod. unfold train. py_unfold. rewrite Hoptims, Hrange.
  cbn [epoch_loop]. unfold train_epoch, is_multiple. cbn [batch_loop]. py_unfold.
  rewrite (bool_decide_eq_false_2 _ Hlog). py_unfold.
  by rewrite (bool_decide_eq_true_2 _ Hmod).
Qed.

End EpochFacts.

(** With the module's own two loss functions and the heat map off, the
    first batch of [Solver.train] gets as far as the discriminator step:
    the discriminator loss is computed, the parameters take that step,
    and then the generator phase raises [TypeError]; one batch has been
    fetched, and no moving average, no decay of the weight, no logging
    and no checkpoint has happened. *)
Theorem Solver_train_stops_after_discriminator_step {T : Type} `{PyNum T}
    (bce : list T → list T → T) (fetcher : nat → Batch T) (n : nat)
    (callable : gmap string Module_ → Store T → Nets T)
    (backward_and_step : list string → T → Store T → Store T)
    (self : Solver T) (optims_ : gmap string (Optimizer T)) (w : World T)
    (epoch : Z) (epochs : list Z) :
  optims self = Some optims_ →
  epoch_range (w_args w) = epoch :: epochs →
  num_ltb num_zero (w_hpf (w_args w)) = false →
  let inputs := fetcher (w_fetched w) in
  ∃ d_loss d_losses_latent,
    (compute_d_loss bce (callable (nets self) (w_store w)) (w_args w)
       (inputs_x_src inputs) (inputs_y_src inputs) (inputs_y_ref inputs)
       (Some (inputs_z_trg inputs)) None None []).1 = Ok (d_loss, d_losses_latent) ∧
    Solver_train bce fetcher (S n) callable backward_and_step self w
    = (Raise TypeError,
       {| w_args := w_args w;
          w_store := backward_and_step ["discriminator"] d_loss (w_store w);
          w_fs := w_fs w;
          w_fetched := S (w_fetched w);
          w_effects := w_effects w |}).
Proof.
  intros Hoptims Hrange Hhpf inputs. eexists _, _. split; [reflexivity|].
  unfold Solver_train, train. py_unfold. rewrite Hoptims, Hrange.
  cbn [epoch_loop]. unfold train_epoch. cbn [batch_loop]. unfold train_batch.
  py_unfold. unfold heatmap_if_enabled. rewrite Hhpf. reflexivity.
Qed.

(** ** The further properties on the small instance *)

(** [evaluate] on the small instance in mode [eval], after the shadows
    were saved: the metrics are calculated on the live ensemble. *)
Lemma evaluate_calculates_metrics_on_live_nets_witness :
  let args := Toy.args (T:=Q) "eval" 1 4 in
  let self := Solver_init args Toy.ensembles in
  let saved := (_save_checkpoint self 0 (Toy.world args)).2 in
  w_effects (evaluate self saved).2 =
    [CkptWrite "expr/checkpoints/000000_nets_ema.ckpt";
     CkptRead "expr/checkpoints/000000_nets_ema.ckpt";
     CalculateMetrics Toy.ensembles.1 0 "latent";
     CalculateMetrics Toy.ensembles.1 0 "reference"].
Proof.
  intros args self saved.
  destruct (evaluate_calculates_metrics_on_live_nets args Toy.ensembles.1 Toy.ensembles.2
              saved ltac:(discriminate)) as [_ Heval].
  change (Solver_init args (Toy.ensembles.1, Toy.ensembles.2)) with self in Heval.
  rewrite Heval. vm_compute. reflexivity.
Defined.

(** One batch of the small instance with the module's own losses. *)
Lemma Solver_train_stops_after_discriminator_step_witness :
  let args := Toy.args (T:=Q) "train" 1 4 in
  let run := Solver_train Toy.bce (Toy.fetcher 5) 1 Toy.callable Toy.backward_and_step
               (Solver_init args Toy.ensembles) (Toy.world args) in
  run.1 = Raise TypeError ∧ w_fetched run.2 = 1%nat ∧
  w_effects run.2 = [] ∧ lambda_ds (w_args run.2) = 1%Q.
Proof.
  intros args run. subst run.
  edestruct (Solver_train_stops_after_discriminator_step Toy.bce (Toy.fetcher 5) 0
               Toy.callable Toy.backward_and_step (Solver_init args Toy.ensembles))
    with (w := Toy.world args) (epoch := 0%Z) (epochs := @nil Z)
    as (d_loss & d_losses & _ & ->); [reflexivity..|].
  repeat split; reflexivity.
Defined.

(** A run resumed at epoch 5 of 3 does nothing. *)
Lemma train_without_epochs_witness :
  let args := with_epochs 3 5 (Toy.args (T:=Q) "train" 1 4) in
  Solver_train Toy.bce (Toy.fetcher 5) 2 Toy.callable Toy.backward_and_step
    (Solver_init args Toy.ensembles) (Toy.world args)
  = (Ok (), Toy.world args).
Proof.
  intros args.
  eapply (train_without_epochs (Toy.fetcher 5) 2 Toy.callable Toy.backward_and_step
            (compute_d_loss Toy.bce) (compute_g_loss Toy.bce)
            (Solver_init args Toy.ensembles)).
  - reflexivity.
  - vm_compute. discriminate.
Defined.

(** The small instance with an empty loader. *)
Lemma train_on_empty_loader_witness :
  let args := Toy.args (T:=Q) "train" 1 4 in
  Solver_train Toy.bce (Toy.fetcher 5) 0 Toy.callable Toy.backward_and_step
    (Solver_init args Toy.ensembles) (Toy.world args)
  = (Raise UnboundLocalError, Toy.world args).
Proof.
  intros args.
  eapply (train_on_empty_loader (Toy.fetcher 5) Toy.callable Toy.backward_and_step
            (compute_d_loss Toy.bce) (compute_g_loss Toy.bce));
    [reflexivity|reflexivity|discriminate|reflexivity].
Defined.

(** ** A weight that is not positive *)

Section Frozen.
Context {T : Type} `{PyNum T}.
Context (fetcher : nat → Batch T) (iters_per_epoch : nat).
Context (callable : gmap string Module_ → Store T → Nets T).
Context (backward_and_step : list string → T → Store T → Store T).
Context (d_loss_fn : loss_fn T (Tensor T)) (g_loss_fn : loss_fn T (list (Tensor T))).

Global Instance frozen_preorder : PreOrder (frozen (T:=T)).
Proof.
  split.
  - by intros w _.
  - intros w1 w2 w3 H12 H23 Hguard. specialize (H12 Hguard).
    rewrite <- H12. apply H23. by rewrite H12.
Qed.


Local Abbreviation fz_ret := (@relates_ret _ (frozen (T:=T)) frozen_preorder).
Local Abbreviation fz_raise := (@relates_raise _ (frozen (T:=T)) frozen_preorder).
Local Abbreviation fz_get := (@relates_get _ (frozen (T:=T)) frozen_preorder).
Local Abbreviation fz_modify := (@relates_modify _ (frozen (T:=T))).
Local Abbreviation fz_bind := (@relates_bind _ (frozen (T:=T)) frozen_preorder).
Local Abbreviation fz_when := (@relates_when _ (frozen (T:=T)) frozen_preorder).
Local Abbreviation fz_for_each := (@relates_for_each _ (frozen (T:=T)) frozen_preorder).





End Frozen.


